(** * chitchat: the connection registry and the message router of main.py

    A shallow embedding of [ConnectionManager] and [websocket_endpoint]
    (src/main.py).  The coroutines are written in a small state-and-exception
    monad over a [World]: the manager's list of connections, the scripted
    answers of the transport and of the clock, and the trace of the transport
    calls made so far.  One call runs without interleaving of other tasks. *)

From Stdlib Require Import String Ascii Bool Arith NArith ZArith Lia List.
From Stdlib Require Import DecimalString DecimalPos DecimalZ.
Import ListNotations.

Set Implicit Arguments.

(** ** Values *)

(** A Python [str] is a sequence of Unicode code points. *)
Definition str := list N.

(** The code points of a literal. *)
Definition py (s : string) : str := map N_of_ascii (list_ascii_of_string s).

Definition str_eqb (a b : str) : bool :=
  if list_eq_dec N.eq_dec a b then true else false.

(** A [WebSocket] object; [in] and [list.remove] compare such objects by
    identity, which the number stands for. *)
Definition WebSocket := nat.

(** The exception classes the code can meet.  [CancelledError] derives from
    [BaseException] only; the others derive from [Exception]. *)
Inductive exn : Type :=
| WebSocketDisconnect
| RuntimeError
| ValueError
| CancelledError.

Definition isinstance_Exception (e : exn) : bool :=
  match e with
  | CancelledError => false
  | _ => true
  end.

Definition isinstance_WebSocketDisconnect (e : exn) : bool :=
  match e with
  | WebSocketDisconnect => true
  | _ => false
  end.

(** ** The world *)

(** A transport call that was made, with its answer ([None]: it returned). *)
Inductive event : Type :=
| Accept (websocket : WebSocket) (answer : option exn)
| SendText (websocket : WebSocket) (message : str) (answer : option exn).

Record World : Type := mkWorld {
  active_connections : list WebSocket;  (* manager.active_connections *)
  accept_script : list (option exn);    (* answers of the coming accept() calls *)
  send_script : list (option exn);      (* answers of the coming send_text() calls *)
  clock : list N;                       (* coming readings of the local clock, in seconds *)
  trace : list event                    (* transport calls so far, oldest first *)
}.

Definition set_active_connections (l : list WebSocket) (w : World) : World :=
  mkWorld l (accept_script w) (send_script w) (clock w) (trace w).

(** ** The monad of coroutine bodies *)

(** A body returns, raises, or is left suspended at an [await] whose answer
    has not come. *)
Inductive result (A : Type) : Type :=
| Return (a : A)
| Raise (e : exn)
| Suspended.

Arguments Raise {A} e.
Arguments Suspended {A}.

Definition M (A : Type) : Type := World -> result A * World.

Definition ret {A} (a : A) : M A := fun w => (Return a, w).

Definition raise {A} (e : exn) : M A := fun w => (Raise e, w).

Definition bind {A B} (m : M A) (k : A -> M B) : M B :=
  fun w =>
    match m w with
    | (Return a, w') => k a w'
    | (Raise e, w') => (Raise e, w')
    | (Suspended, w') => (Suspended, w')
    end.

(** [try: m except <handler>]; the handler re-raises what it does not catch. *)
Definition try_except {A} (m : M A) (handler : exn -> M A) : M A :=
  fun w =>
    match m w with
    | (Raise e, w') => handler e w'
    | r => r
    end.

Declare Scope py_scope.
Delimit Scope py_scope with py.
Notation "x <- m ;; k" := (bind m (fun x => k))
  (at level 61, m at next level, right associativity) : py_scope.
Notation "m ;;; k" := (bind m (fun _ => k))
  (at level 61, right associativity) : py_scope.
Open Scope py_scope.

(** ** The transport and the clock *)

(** The answer to the next call; past the end of the script the calls return. *)
Definition answer_of (script : list (option exn)) : option exn :=
  match script with
  | [] => None
  | a :: _ => a
  end.

(** [await websocket.accept()] *)
Definition accept (websocket : WebSocket) : M unit :=
  fun w =>
    let a := answer_of (accept_script w) in
    let w' := mkWorld (active_connections w) (tl (accept_script w)) (send_script w)
                      (clock w) (trace w ++ [Accept websocket a]) in
    match a with
    | None => (Return tt, w')
    | Some e => (Raise e, w')
    end.

(** [await connection.send_text(message)] *)
Definition send_text (connection : WebSocket) (message : str) : M unit :=
  fun w =>
    let a := answer_of (send_script w) in
    let w' := mkWorld (active_connections w) (accept_script w) (tl (send_script w))
                      (clock w) (trace w ++ [SendText connection message a]) in
    match a with
    | None => (Return tt, w')
    | Some e => (Raise e, w')
    end.

(** ** Python lists *)

(** [x in l] *)
Fixpoint list_contains (x : WebSocket) (l : list WebSocket) : bool :=
  match l with
  | [] => false
  | y :: l' => if Nat.eqb y x then true else list_contains x l'
  end.

(** [l.remove(x)]: the first occurrence goes; [None] stands for ValueError. *)
Fixpoint list_remove (x : WebSocket) (l : list WebSocket) : option (list WebSocket) :=
  match l with
  | [] => None
  | y :: l' =>
      if Nat.eqb y x then Some l'
      else match list_remove x l' with
           | Some r => Some (y :: r)
           | None => None
           end
  end.

(** [websocket in self.active_connections] *)
Definition contains (websocket : WebSocket) : M bool :=
  fun w => (Return (list_contains websocket (active_connections w)), w).

(** [self.active_connections.remove(websocket)] *)
Definition remove (websocket : WebSocket) : M unit :=
  fun w =>
    match list_remove websocket (active_connections w) with
    | Some l => (Return tt, set_active_connections l w)
    | None => (Raise ValueError, w)
    end.

(** [self.active_connections.append(websocket)] *)
Definition append (websocket : WebSocket) : M unit :=
  fun w => (Return tt, set_active_connections (active_connections w ++ [websocket]) w).

(** [list(self.active_connections)] *)
Definition snapshot : M (list WebSocket) :=
  fun w => (Return (active_connections w), w).

(** ** ConnectionManager *)

(** [async def connect(self, websocket)] *)
Definition connect (websocket : WebSocket) : M unit :=
  accept websocket ;;;
  append websocket.

(** [def disconnect(self, websocket)] *)
Definition disconnect (websocket : WebSocket) : M unit :=
  present <- contains websocket ;;
  if present then remove websocket else ret tt.

(** The body of [broadcast]'s [for], once per element of the copy. *)
Fixpoint broadcast_for (connections : list WebSocket) (message : str) : M unit :=
  match connections with
  | [] => ret tt
  | connection :: rest =>
      try_except (send_text connection message)
        (fun e =>
           if isinstance_Exception e then
             present <- contains connection ;;
             if present then remove connection else ret tt
           else raise e) ;;;
      broadcast_for rest message
  end.

(** [async def broadcast(self, message)] *)
Definition broadcast (message : str) : M unit :=
  connections <- snapshot ;;
  broadcast_for connections message.

(** ** time.strftime and json.dumps *)

(** The digit [d] as a character. *)
Definition digit (d : N) : N := (48 + d)%N.

(** [%H] and [%M]: two decimal digits. *)
Definition two_digits (n : N) : str := [digit (n / 10); digit (n mod 10)]%N.

Definition tm_hour (t : N) : N := ((t / 3600) mod 24)%N.
Definition tm_min (t : N) : N := ((t / 60) mod 60)%N.

(** The local time [t], in seconds, under the format ["%H:%M"]. *)
Definition strftime_HM (t : N) : str :=
  two_digits (tm_hour t) ++ py ":" ++ two_digits (tm_min t).

(** [time.strftime("%H:%M")]: reads the clock (0 past the end of the readings). *)
Definition time_strftime : M str :=
  fun w =>
    (Return (strftime_HM (hd 0%N (clock w))),
     mkWorld (active_connections w) (accept_script w) (send_script w)
             (tl (clock w)) (trace w)).

(** A lower-case hexadecimal digit. *)
Definition hex_digit (d : N) : N := if (d <? 10)%N then (48 + d)%N else (87 + d)%N.

(** ['{0:04x}'.format(n)] for [n < 0x10000]. *)
Definition hex4 (n : N) : str :=
  [hex_digit ((n / 4096) mod 16); hex_digit ((n / 256) mod 16);
   hex_digit ((n / 16) mod 16); hex_digit (n mod 16)]%N.

(** [\uXXXX] *)
Definition u_escape (n : N) : str := [92; 117]%N ++ hex4 n.

(** What [json.dumps] (with its default [ensure_ascii]) writes for one
    character of a string: the quote, the backslash and everything outside
    [' '..'~'] are escaped, characters above U+FFFF as a surrogate pair. *)
Definition escape_char (c : N) : str :=
  (if c =? 34 then [92; 34]
   else if c =? 92 then [92; 92]
   else if c =? 10 then [92; 110]
   else if c =? 13 then [92; 114]
   else if c =? 9 then [92; 116]
   else if c =? 8 then [92; 98]
   else if c =? 12 then [92; 102]
   else if (32 <=? c) && (c <=? 126) then [c]
   else if c <? 65536 then u_escape c
   else
     let v := c - 65536 in
     u_escape (N.lor 55296 (N.land (N.shiftr v 10) 1023))
       ++ u_escape (N.lor 56320 (N.land v 1023)))%N.

(** The characters between the quotes. *)
Definition escape (s : str) : str := flat_map escape_char s.

(** A string as a JSON string literal. *)
Definition encode_basestring_ascii (s : str) : str := [34%N] ++ escape s ++ [34%N].

(** The values the endpoint puts in its dict. *)
Inductive json : Type :=
| JInt (n : Z)
| JStr (s : str).

Definition dumps_value (v : json) : str :=
  match v with
  | JInt n => py (NilZero.string_of_int (Z.to_int n))
  | JStr s => encode_basestring_ascii s
  end.

Definition dumps_item (item : str * json) : str :=
  encode_basestring_ascii (fst item) ++ py ": " ++ dumps_value (snd item).

Fixpoint dumps_items (items : list (str * json)) : str :=
  match items with
  | [] => []
  | [item] => dumps_item item
  | item :: rest => dumps_item item ++ py ", " ++ dumps_items rest
  end.

(** [json.dumps(d)] for a dict [d] of such values, keys in insertion order. *)
Definition json_dumps (d : list (str * json)) : str :=
  py "{" ++ dumps_items d ++ py "}".

(** ** The route /ws/{client_id} *)

Definition ping : str := py "__ping__".

(** An answer of [await websocket.receive_text()]. *)
Inductive received : Type :=
| Data (data : str)
| Fails (e : exn).

(** The dict of the endpoint. *)
Definition chat_message (client_id : Z) (timestamp data : str) : list (str * json) :=
  [(py "client_id", JInt client_id);
   (py "timestamp", JStr timestamp);
   (py "message", JStr data)].

(** The [while True] of the endpoint; [inbox] holds the answers of the
    successive [receive_text] calls, and the loop stays suspended in the call
    that has no answer yet. *)
Fixpoint receive_loop (websocket : WebSocket) (client_id : Z) (inbox : list received)
  : M unit :=
  match inbox with
  | [] => fun w => (Suspended, w)
  | Fails e :: _ => raise e
  | Data data :: rest =>
      if str_eqb data ping then receive_loop websocket client_id rest
      else
        timestamp <- time_strftime ;;
        let payload := json_dumps (chat_message client_id timestamp data) in
        broadcast payload ;;;
        receive_loop websocket client_id rest
  end.

(** [async def websocket_endpoint(websocket, client_id: int)] *)
Definition websocket_endpoint (websocket : WebSocket) (client_id : Z)
  (inbox : list received) : M unit :=
  connect websocket ;;;
  try_except (receive_loop websocket client_id inbox)
    (fun e =>
       if isinstance_WebSocketDisconnect e then disconnect websocket
       else if isinstance_Exception e then disconnect websocket
       else raise e).

(** ** What a call leaves behind, read off its arguments *)

(** [l.remove(x)] guarded by [x in l]. *)
Definition discard (x : WebSocket) (l : list WebSocket) : list WebSocket :=
  match list_remove x l with
  | Some r => r
  | None => l
  end.

(** The [send_text] calls of one [broadcast] over [connections]. *)
Fixpoint attempts (connections : list WebSocket) (message : str)
  (script : list (option exn)) : list event :=
  match connections with
  | [] => []
  | c :: rest => SendText c message (answer_of script) :: attempts rest message (tl script)
  end.

(** The list of connections after that [broadcast]. *)
Fixpoint pruned (connections : list WebSocket) (script : list (option exn))
  (l : list WebSocket) : list WebSocket :=
  match connections with
  | [] => l
  | c :: rest =>
      match answer_of script with
      | None => pruned rest (tl script) l
      | Some _ => pruned rest (tl script) (discard c l)
      end
  end.

(** The target of a [send_text] call. *)
Definition target (ev : event) : option WebSocket :=
  match ev with
  | SendText c _ _ => Some c
  | Accept _ _ => None
  end.

(** [c] was sent to, and the call raised. *)
Definition failed_to (c : WebSocket) (ev : event) : bool :=
  match ev with
  | SendText c' _ (Some _) => Nat.eqb c' c
  | _ => false
  end.

(** [c] was sent to. *)
Definition sent_to (c : WebSocket) (ev : event) : bool :=
  match ev with
  | SendText c' _ _ => Nat.eqb c' c
  | _ => false
  end.

Definition count (f : event -> bool) (t : list event) : nat := length (filter f t).

(** No scripted [send_text] is cut by the cancellation of the task: it
    returns, or raises an [Exception]. *)
Definition uncancelled (a : option exn) : bool :=
  match a with
  | None => true
  | Some e => isinstance_Exception e
  end.

(** A scripted [send_text] that returns. *)
Definition returned (a : option exn) : bool :=
  match a with
  | None => true
  | Some _ => false
  end.

(** The answers to the [send_text] calls of a [broadcast] that starts in [w]. *)
Definition answers (w : World) : list (option exn) :=
  firstn (length (active_connections w)) (send_script w).

(** The calls made between two worlds. *)
Definition since (w w' : World) : list event := skipn (length (trace w)) (trace w').

(** ** Reading the payload back *)

(** What a reader of JSON, such as the page's [JSON.parse], makes of the
    payload.  These functions serve to state what the payload carries; the
    hub does not run them. *)

(** A Unicode scalar value: a code point that is not a surrogate.  A text
    frame is decoded from UTF-8 and holds nothing else. *)
Definition scalar (c : N) : bool :=
  ((c <? 55296) || ((57343 <? c) && (c <=? 1114111)))%N.

Definition unhex_digit (c : N) : option N :=
  (if (48 <=? c) && (c <=? 57) then Some (c - 48)
   else if (97 <=? c) && (c <=? 102) then Some (c - 87)
   else if (65 <=? c) && (c <=? 70) then Some (c - 55)
   else None)%N.

Definition unhex4 (a b c d : N) : option N :=
  match unhex_digit a, unhex_digit b, unhex_digit c, unhex_digit d with
  | Some x, Some y, Some z, Some t => Some (4096 * x + 256 * y + 16 * z + t)%N
  | _, _, _, _ => None
  end.

(** The character a one-letter escape stands for. *)
Definition unescape (e : N) : option N :=
  (if e =? 34 then Some 34
   else if e =? 92 then Some 92
   else if e =? 47 then Some 47
   else if e =? 98 then Some 8
   else if e =? 102 then Some 12
   else if e =? 110 then Some 10
   else if e =? 114 then Some 13
   else if e =? 116 then Some 9
   else None)%N.

Definition cons_char (c : N) (r : option (str * str)) : option (str * str) :=
  match r with
  | Some (s, rest) => Some (c :: s, rest)
  | None => None
  end.

(** Reads a string literal whose opening quote is behind: the string, and
    what follows the closing quote. *)
Fixpoint scanstring (s : str) : option (str * str) :=
  match s with
  | [] => None
  | c :: s1 =>
      if (c =? 34)%N then Some ([], s1)
      else if (c =? 92)%N then
        match s1 with
        | [] => None
        | e :: s2 =>
            if (e =? 117)%N then
              match s2 with
              | h1 :: h2 :: h3 :: h4 :: s3 =>
                  match unhex4 h1 h2 h3 h4 with
                  | None => None
                  | Some uni =>
                      if ((55296 <=? uni) && (uni <=? 56319))%N then
                        match s3 with
                        | b :: u :: l1 :: l2 :: l3 :: l4 :: s4 =>
                            if ((b =? 92) && (u =? 117))%N then
                              match unhex4 l1 l2 l3 l4 with
                              | None => None
                              | Some uni2 =>
                                  if ((56320 <=? uni2) && (uni2 <=? 57343))%N then
                                    cons_char
                                      (65536 + (1024 * (uni - 55296) + (uni2 - 56320)))%N
                                      (scanstring s4)
                                  else cons_char uni (scanstring s3)
                              end
                            else cons_char uni (scanstring s3)
                        | _ => cons_char uni (scanstring s3)
                        end
                      else cons_char uni (scanstring s3)
                  end
              | _ => None
              end
            else
              match unescape e with
              | Some ch => cons_char ch (scanstring s2)
              | None => None
              end
        end
      else if (c <? 32)%N then None
      else cons_char c (scanstring s1)
  end.

(** [s] without the leading [prefix], if it starts with it. *)
Fixpoint expect (prefix s : str) : option str :=
  match prefix with
  | [] => Some s
  | p :: prefix' =>
      match s with
      | c :: s' => if (c =? p)%N then expect prefix' s' else None
      | [] => None
      end
  end.

Definition is_sign_or_digit (c : N) : bool :=
  ((c =? 45) || ((48 <=? c) && (c <=? 57)))%N.

(** The longest leading run of sign and digit characters, and the rest. *)
Fixpoint span_number (s : str) : str * str :=
  match s with
  | c :: s' =>
      if is_sign_or_digit c then (c :: fst (span_number s'), snd (span_number s'))
      else ([], s)
  | [] => ([], [])
  end.

(** The characters of an ASCII [str] as a [string]. *)
Definition show (s : str) : string := string_of_list_ascii (map ascii_of_N s).

(** Reads a decimal integer. *)
Definition scan_int (s : str) : option (Z * str) :=
  match NilZero.int_of_string (show (fst (span_number s))) with
  | Some i => Some (Z.of_int i, snd (span_number s))
  | None => None
  end.

Definition quote : str := [34%N].

(** Reads the object of the wire schema: [client_id], [timestamp], [message]. *)
Definition read_chat_message (payload : str) : option (Z * str * str) :=
  match expect (py "{" ++ quote ++ py "client_id" ++ quote ++ py ": ") payload with
  | None => None
  | Some s1 =>
      match scan_int s1 with
      | None => None
      | Some (client_id, s2) =>
          match expect (py ", " ++ quote ++ py "timestamp" ++ quote ++ py ": " ++ quote) s2 with
          | None => None
          | Some s3 =>
              match scanstring s3 with
              | None => None
              | Some (timestamp, s4) =>
                  match expect (py ", " ++ quote ++ py "message" ++ quote ++ py ": " ++ quote) s4 with
                  | None => None
                  | Some s5 =>
                      match scanstring s5 with
                      | Some (message, [125%N]) => Some (client_id, timestamp, message)
                      | _ => None
                      end
                  end
              end
          end
      end
  end.

(** ** Sequences of calls on the manager *)

(** The manager as its callers see it: [connect], [disconnect], [broadcast]. *)
Inductive op : Type :=
| Add (websocket : WebSocket)
| Remove (websocket : WebSocket)
| Broadcast (message : str).

(** One call, run to its end; what it returned or raised stays with its caller. *)
Definition step (w : World) (o : op) : World :=
  match o with
  | Add websocket => snd (connect websocket w)
  | Remove websocket => snd (disconnect websocket w)
  | Broadcast message => snd (broadcast message w)
  end.

Definition run_ops (ops : list op) (w : World) : World := fold_left step ops w.

(** Every [Add] in [ops] is given a websocket that is not in the list at
    that moment. *)
Fixpoint adds_fresh (ops : list op) (w : World) : bool :=
  match ops with
  | [] => true
  | o :: rest =>
      match o with
      | Add websocket => negb (list_contains websocket (active_connections w))
      | _ => true
      end && adds_fresh rest (step w o)
  end.

(** [accept()] has returned on [websocket] in the calls of [t]. *)
Definition accepted (websocket : WebSocket) (t : list event) : bool :=
  existsb (fun ev =>
             match ev with
             | Accept ws None => Nat.eqb ws websocket
             | _ => false
             end) t.

(** The rule of the transport along a run of [ops]: [accept()] raises when
    it is called on a websocket on which it has returned before (Starlette's
    [WebSocket.accept] raises RuntimeError once the websocket is connected).
    The script of a world is free; this says that it follows the rule. *)
Fixpoint accepts_once (ops : list op) (w : World) : bool :=
  match ops with
  | [] => true
  | o :: rest =>
      match o with
      | Add websocket =>
          if accepted websocket (trace w) then
            match answer_of (accept_script w) with
            | Some _ => true
            | None => false
            end
          else true
      | _ => true
      end && accepts_once rest (step w o)
  end.

(** [ConnectionManager()], facing a transport with the given answers. *)
Definition initial (accepts sends : list (option exn)) (times : list N) : World :=
  mkWorld [] accepts sends times [].

(** ** Worlds to run the code in *)

(** Three connections; the call to the second one will fail. *)
Definition w_three : World :=
  mkWorld [1; 2; 3] [] [None; Some RuntimeError; None] [] [].

(** Three connections; the calls to the first two will fail. *)
Definition w_failing : World :=
  mkWorld [1; 2; 3] [] [Some RuntimeError; Some WebSocketDisconnect; None] [] [].

(** A websocket that was appended twice. *)
Definition w_twice : World := mkWorld [4; 5; 4] [] [] [] [].

(** An empty hub facing a healthy transport, at 12:34:56. *)
Definition w_empty : World := initial [] [] [45296%N].

(** Two connections and a healthy transport, at 12:34:56. *)
Definition w_two : World := mkWorld [1; 2] [] [] [45296%N] [].

(** Two connections, the send to the first one failing, at 23:59:59. *)
Definition w_late : World :=
  mkWorld [1; 2] [] [Some WebSocketDisconnect] [86399%N] [].

(** Three connections, the second with a closed transport, and two more
    rounds of healthy sends; 12:34:56 and a minute later. *)
Definition w_scenario_b : World :=
  mkWorld [1; 2; 3] [] [None; Some RuntimeError; None; None; None]
          [45296%N; 45356%N] [].

(** The payload of the message [data] of client 1 at 12:34 and at 12:35. *)
Definition at_1234 (data : str) : str := json_dumps (chat_message 1 (py "12:34") data).
Definition at_1235 (data : str) : str := json_dumps (chat_message 1 (py "12:35") data).

(** ** Whole sessions *)

(** A [send_text] call that raised. *)
Definition failed (ev : event) : bool :=
  match ev with
  | SendText _ _ (Some _) => true
  | _ => false
  end.

(** The [send_text] calls of a broadcast that all return. *)
Definition deliveries (connections : list WebSocket) (message : str) : list event :=
  map (fun c => SendText c message None) connections.

(** The payloads the loop makes of an inbox, one per frame that is not the
    keepalive up to the first [receive_text] that raises, with the successive
    readings of the clock. *)
Fixpoint payloads (client_id : Z) (inbox : list received) (times : list N) : list str :=
  match inbox with
  | [] => []
  | Fails _ :: _ => []
  | Data data :: rest =>
      if str_eqb data ping then payloads client_id rest times
      else json_dumps (chat_message client_id (strftime_HM (hd 0%N times)) data)
             :: payloads client_id rest (tl times)
  end.

(** How the loop ends on an inbox when no broadcast is cut: at the first
    [receive_text] that raises, or suspended when there is none. *)
Fixpoint outcome (inbox : list received) : result unit :=
  match inbox with
  | [] => Suspended
  | Fails e :: _ => Raise e
  | Data _ :: rest => outcome rest
  end.

(** A character of [' '..'~']. *)
Definition printable (c : N) : bool := ((32 <=? c) && (c <=? 126))%N.

(** ** The page's form *)

(** The script of the page served at [/] (the string [html]): its
    [sendMessage] and what it touches.  A JavaScript string is taken as the
    sequence of its code points; [trim] removes code points of the Basic
    Multilingual Plane only. *)

(** WhiteSpace and LineTerminator of ECMAScript, which
    [String.prototype.trim] removes. *)
Definition js_whitespace (c : N) : bool :=
  ((c =? 9) || (c =? 10) || (c =? 11) || (c =? 12) || (c =? 13) || (c =? 32)
   || (c =? 160) || (c =? 5760) || ((8192 <=? c) && (c <=? 8202))
   || (c =? 8232) || (c =? 8233) || (c =? 8239) || (c =? 8287)
   || (c =? 12288) || (c =? 65279))%N.

Fixpoint trim_start (s : str) : str :=
  match s with
  | [] => []
  | c :: s' => if js_whitespace c then trim_start s' else s
  end.

(** [s.trim()] *)
Definition trim (s : str) : str := rev (trim_start (rev (trim_start s))).

(** [ws.readyState] *)
Inductive readyState : Type := CONNECTING | OPEN | CLOSING | CLOSED.

Definition is_open (r : readyState) : bool :=
  match r with
  | OPEN => true
  | _ => false
  end.

Record Page : Type := mkPage {
  messageText : str;          (* inputEl.value *)
  ws_readyState : readyState; (* ws.readyState *)
  ws_sent : list str          (* the frames given to ws.send, oldest first *)
}.

(** [function sendMessage(event)] *)
Definition sendMessage (p : Page) : Page :=
  let value := trim (messageText p) in
  if match value with [] => true | _ => false end || negb (is_open (ws_readyState p))
  then p
  else mkPage [] (ws_readyState p) (ws_sent p ++ [value]).

(** ** More worlds *)

(** Three connections; the task is cancelled in the send to the second one. *)
Definition w_cancelled : World :=
  mkWorld [1; 2; 3] [] [Some RuntimeError; Some CancelledError; None] [] [].

(** Two connections; the handshake of the next one will fail. *)
Definition w_refusing : World :=
  mkWorld [1; 2] [Some RuntimeError] [] [45296%N] [].

(** A new hub; the second [accept()] of its transport raises. *)
Definition w_strict : World := initial [None; Some RuntimeError; None] [] [].

(** Two connections and a healthy transport, at 12:34:56 and a minute later. *)
Definition w_healthy : World := mkWorld [1; 2] [] [] [45296%N; 45356%N] [].

(** The text of the form: the keepalive token between blanks. *)
Definition typed_ping : str := py "  __ping__ ".

(** * Properties *)

(** ** Lists *)

Lemma list_contains_In x l : list_contains x l = true <-> In x l.
Proof.
  induction l as [|y l IH]; simpl.
  - split; [discriminate | tauto].
  - destruct (Nat.eqb_spec y x) as [->|Hne].
    + split; auto.
    + rewrite IH. split; [auto | intros [H|H]; [contradiction | exact H]].
Qed.

Lemma list_contains_count x l : list_contains x l = true <-> 0 < count_occ Nat.eq_dec l x.
Proof. rewrite list_contains_In. apply count_occ_In. Qed.

Lemma list_remove_present x l : list_contains x l = true -> exists r, list_remove x l = Some r.
Proof.
  induction l as [|y l IH]; simpl; [discriminate|].
  destruct (Nat.eqb y x); [eauto|].
  intros H. destruct (IH H) as [r ->]. eauto.
Qed.

Lemma list_remove_absent x l : list_contains x l = false -> list_remove x l = None.
Proof.
  induction l as [|y l IH]; simpl; [reflexivity|].
  destruct (Nat.eqb y x); [discriminate|].
  intros H. now rewrite (IH H).
Qed.

Lemma discard_absent x l : list_contains x l = false -> discard x l = l.
Proof. intros H. unfold discard. now rewrite (list_remove_absent _ _ H). Qed.

Lemma discard_cons x y l :
  discard x (y :: l) = if Nat.eqb y x then l else y :: discard x l.
Proof.
  unfold discard. simpl. destruct (Nat.eqb y x); [reflexivity|].
  now destruct (list_remove x l).
Qed.

Lemma count_occ_discard_same x l :
  count_occ Nat.eq_dec (discard x l) x = count_occ Nat.eq_dec l x - 1.
Proof.
  induction l as [|y l IH]; [reflexivity|].
  rewrite discard_cons. destruct (Nat.eqb_spec y x) as [->|Hne].
  - rewrite count_occ_cons_eq by reflexivity. simpl. now rewrite Nat.sub_0_r.
  - rewrite !count_occ_cons_neq by assumption. exact IH.
Qed.

Lemma count_occ_discard_other x c l :
  x <> c -> count_occ Nat.eq_dec (discard x l) c = count_occ Nat.eq_dec l c.
Proof.
  intros Hxc. induction l as [|y l IH]; [reflexivity|].
  rewrite discard_cons. destruct (Nat.eqb_spec y x) as [->|Hne].
  - now rewrite count_occ_cons_neq.
  - simpl. destruct (Nat.eq_dec y c); now rewrite IH.
Qed.

Lemma length_discard x l :
  list_contains x l = true -> S (length (discard x l)) = length l.
Proof.
  induction l as [|y l IH]; [discriminate|].
  rewrite discard_cons. simpl. destruct (Nat.eqb y x); [reflexivity|].
  intros H. simpl. now rewrite (IH H).
Qed.

Lemma discard_incl x l c : In c (discard x l) -> In c l.
Proof.
  induction l as [|y l IH]; [auto|].
  rewrite discard_cons. destruct (Nat.eqb y x); simpl; tauto.
Qed.

Lemma NoDup_discard x l : NoDup l -> NoDup (discard x l).
Proof.
  induction 1 as [|y l Hy Hl IH]; [constructor|].
  rewrite discard_cons. destruct (Nat.eqb y x); [assumption|].
  constructor; [|assumption]. intros H. apply Hy. eapply discard_incl; eauto.
Qed.

(** ** One broadcast *)

Lemma uncancelled_firstn_S n script :
  forallb uncancelled (firstn (S n) script) = true ->
  uncancelled (answer_of script) = true
  /\ forallb uncancelled (firstn n (tl script)) = true.
Proof.
  destruct script as [|a s]; simpl.
  - intros _. split; [reflexivity | now destruct n].
  - intros H. now apply andb_prop in H.
Qed.

Lemma forallb_firstn {A} (f : A -> bool) n l :
  forallb f l = true -> forallb f (firstn n l) = true.
Proof.
  revert l. induction n as [|n IH]; intros [|a l]; simpl; auto.
  intros [Ha Hl]%andb_prop. rewrite Ha. simpl. auto.
Qed.

Lemma forallb_skipn {A} (f : A -> bool) n l :
  forallb f l = true -> forallb f (skipn n l) = true.
Proof.
  revert l. induction n as [|n IH]; intros [|a l]; simpl; auto.
  intros [_ Hl]%andb_prop. auto.
Qed.

Lemma returned_uncancelled l :
  forallb returned l = true -> forallb uncancelled l = true.
Proof.
  induction l as [|[e|] l IH]; simpl; auto. discriminate.
Qed.

Lemma skipn_S_tl {A} n (l : list A) : skipn (S n) l = skipn n (tl l).
Proof. destruct l; simpl; [now destruct n | reflexivity]. Qed.

(** The guarded removal of the handler is [discard]. *)
Lemma guarded_remove x w :
  (present <- contains x ;; if present then remove x else ret tt) w
  = (Return tt, set_active_connections (discard x (active_connections w)) w).
Proof.
  unfold bind, contains, remove, ret, discard.
  destruct (list_contains x (active_connections w)) eqn:Hin.
  - destruct (list_remove_present _ _ Hin) as [r ->]. reflexivity.
  - rewrite (list_remove_absent _ _ Hin). now destruct w.
Qed.

(** The whole effect of the [for] of [broadcast]. *)
Lemma broadcast_for_run connections message :
  forall w,
  forallb uncancelled (firstn (length connections) (send_script w)) = true ->
  broadcast_for connections message w
  = (Return tt,
     mkWorld (pruned connections (send_script w) (active_connections w))
             (accept_script w)
             (skipn (length connections) (send_script w))
             (clock w)
             (trace w ++ attempts connections message (send_script w))).
Proof.
  induction connections as [|c rest IH]; intros w Hs.
  - simpl. unfold ret. rewrite app_nil_r. now destruct w.
  - cbn [length] in Hs. apply uncancelled_firstn_S in Hs. destruct Hs as [Ha Hs].
    cbn [broadcast_for attempts pruned length]. rewrite skipn_S_tl.
    unfold bind at 1. unfold try_except, send_text.
    destruct (answer_of (send_script w)) as [e|].
    + simpl in Ha. rewrite Ha. rewrite guarded_remove.
      rewrite IH by exact Hs. simpl. now rewrite <- app_assoc.
    + rewrite IH by exact Hs. simpl. now rewrite <- app_assoc.
Qed.

Lemma broadcast_run message w :
  forallb uncancelled (answers w) = true ->
  broadcast message w
  = (Return tt,
     mkWorld (pruned (active_connections w) (send_script w) (active_connections w))
             (accept_script w)
             (skipn (length (active_connections w)) (send_script w))
             (clock w)
             (trace w ++ attempts (active_connections w) message (send_script w))).
Proof. intros Hs. unfold broadcast, bind, snapshot. now apply broadcast_for_run. Qed.

Lemma broadcast_since message w :
  forallb uncancelled (answers w) = true ->
  since w (snd (broadcast message w))
  = attempts (active_connections w) message (send_script w).
Proof.
  intros Hs. rewrite (broadcast_run _ _ Hs). unfold since. simpl.
  rewrite skipn_app, skipn_all, Nat.sub_diag. reflexivity.
Qed.

Lemma since_app w w' new : trace w' = trace w ++ new -> since w w' = new.
Proof.
  intros H. unfold since. rewrite H.
  rewrite skipn_app, skipn_all, Nat.sub_diag. reflexivity.
Qed.

Lemma target_attempts connections message script :
  map target (attempts connections message script) = map Some connections.
Proof.
  revert script. induction connections as [|c rest IH]; intros s; simpl; [reflexivity|].
  now rewrite IH.
Qed.

Lemma count_sent_attempts c connections message script :
  count (sent_to c) (attempts connections message script)
  = count_occ Nat.eq_dec connections c.
Proof.
  revert script. unfold count.
  induction connections as [|x rest IH]; intros s; simpl; [reflexivity|].
  destruct (Nat.eq_dec x c) as [->|Hne].
  - rewrite Nat.eqb_refl. simpl. now rewrite IH.
  - apply Nat.eqb_neq in Hne. rewrite Hne. apply IH.
Qed.

Lemma message_attempts connections message script ev :
  In ev (attempts connections message script) ->
  exists c a, ev = SendText c message a /\ In c connections.
Proof.
  revert script. induction connections as [|x rest IH]; intros s; simpl; [tauto|].
  intros [<-|H]; [eauto|].
  destruct (IH _ H) as (c & a & -> & Hc). eauto.
Qed.

Lemma attempts_member connections message script c :
  In c connections -> exists a, In (SendText c message a) (attempts connections message script).
Proof.
  revert script. induction connections as [|x rest IH]; intros s; simpl; [tauto|].
  intros [->|H]; [eauto|]. destruct (IH (tl s) H) as [a Ha]. eauto.
Qed.

(** Each failed call costs its target one entry of the list, as long as it
    has one. *)
Lemma count_occ_pruned c connections message :
  forall script l,
  count_occ Nat.eq_dec (pruned connections script l) c
  = count_occ Nat.eq_dec l c - count (failed_to c) (attempts connections message script).
Proof.
  unfold count.
  induction connections as [|x rest IH]; intros s l; simpl.
  - now rewrite Nat.sub_0_r.
  - destruct (answer_of s) as [e|].
    + rewrite IH. destruct (Nat.eqb_spec x c) as [->|Hne]; simpl.
      * rewrite count_occ_discard_same.
        now rewrite <- Nat.sub_add_distr.
      * now rewrite count_occ_discard_other.
    + apply IH.
Qed.

Lemma pruned_incl connections : forall script l c,
  In c (pruned connections script l) -> In c l.
Proof.
  induction connections as [|x rest IH]; intros s l c; simpl; [auto|].
  destruct (answer_of s); intros H; apply IH in H; [|exact H].
  eapply discard_incl; eauto.
Qed.

Lemma NoDup_pruned connections : forall script l,
  NoDup l -> NoDup (pruned connections script l).
Proof.
  induction connections as [|x rest IH]; intros s l Hl; simpl; [exact Hl|].
  destruct (answer_of s); apply IH; [now apply NoDup_discard | exact Hl].
Qed.

(** Where every call returns, the list stays as it is. *)
Lemma pruned_all_returned connections : forall script l,
  forallb returned (firstn (length connections) script) = true ->
  pruned connections script l = l.
Proof.
  induction connections as [|x rest IH]; intros s l; simpl; [reflexivity|].
  destruct s as [|[e|] s]; simpl.
  - intros _. apply IH. now destruct (length rest).
  - discriminate.
  - apply IH.
Qed.

(** ** connect and disconnect *)

Lemma disconnect_run websocket w :
  disconnect websocket w
  = (Return tt, set_active_connections (discard websocket (active_connections w)) w).
Proof. apply guarded_remove. Qed.

Lemma connect_run websocket w :
  connect websocket w
  = match answer_of (accept_script w) with
    | None =>
        (Return tt,
         mkWorld (active_connections w ++ [websocket]) (tl (accept_script w))
                 (send_script w) (clock w) (trace w ++ [Accept websocket None]))
    | Some e =>
        (Raise e,
         mkWorld (active_connections w) (tl (accept_script w))
                 (send_script w) (clock w) (trace w ++ [Accept websocket (Some e)]))
    end.
Proof.
  unfold connect, bind, accept, append.
  now destruct (answer_of (accept_script w)).
Qed.

(** One round of the [for]: the call, then the cases of its answer. *)
Ltac one_round w :=
  cbn [broadcast_for]; unfold bind at 1; unfold try_except, send_text;
  destruct (answer_of (send_script w)) as [?e|].

(** A broadcast only takes entries away, also when it is cut short. *)
Lemma broadcast_for_NoDup connections message :
  forall w, NoDup (active_connections w) ->
  NoDup (active_connections (snd (broadcast_for connections message w))).
Proof.
  induction connections as [|c rest IH]; intros w Hw; [exact Hw|].
  one_round w.
  - destruct (isinstance_Exception e).
    + rewrite guarded_remove. apply IH. simpl. now apply NoDup_discard.
    + exact Hw.
  - apply IH. exact Hw.
Qed.

Lemma step_NoDup w o :
  NoDup (active_connections w) ->
  adds_fresh [o] w = true ->
  NoDup (active_connections (step w o)).
Proof.
  intros Hw Hfresh. destruct o as [ws|ws|m]; simpl in *.
  - rewrite connect_run. destruct (answer_of (accept_script w)); simpl; [exact Hw|].
    rewrite andb_true_r in Hfresh. apply negb_true_iff in Hfresh.
    apply NoDup_app; [exact Hw | repeat constructor; simpl; tauto |].
    intros x Hx [<-|[]]. apply list_contains_In in Hx. congruence.
  - rewrite disconnect_run. simpl. now apply NoDup_discard.
  - unfold broadcast, bind, snapshot. now apply broadcast_for_NoDup.
Qed.

(** ** The claims on the registry *)

(** C1: a broadcast tries every connection of the list, whatever the other
    calls answer; it returns without raising; every failed call takes one
    entry of its target out of the list before the broadcast ends, so that a
    target that was in the list once is gone. *)
Theorem broadcast_isolates_failures (message : str) (w : World) :
  forallb uncancelled (answers w) = true ->
  let w' := snd (broadcast message w) in
  fst (broadcast message w) = Return tt
  /\ since w w' = attempts (active_connections w) message (send_script w)
  /\ map target (since w w') = map Some (active_connections w)
  /\ (forall c,
        count_occ Nat.eq_dec (active_connections w') c
        = count_occ Nat.eq_dec (active_connections w) c - count (failed_to c) (since w w'))
  /\ (forall c,
        count_occ Nat.eq_dec (active_connections w) c <= 1 ->
        0 < count (failed_to c) (since w w') ->
        ~ In c (active_connections w')).
Proof.
  intros Hs w'. subst w'. rewrite (broadcast_since _ _ Hs).
  rewrite (broadcast_run _ _ Hs). cbn [fst snd active_connections].
  split; [reflexivity|]. split; [reflexivity|].
  split; [apply target_attempts|].
  split; [intros c; apply count_occ_pruned|].
  intros c Hone Hfail Hin.
  apply (count_occ_In Nat.eq_dec) in Hin.
  rewrite (count_occ_pruned c _ message) in Hin.
  apply Nat.lt_add_lt_sub_r in Hin. simpl in Hin.
  apply (Nat.lt_le_trans _ _ _ Hin) in Hone.
  apply Nat.lt_1_r in Hone. rewrite Hone in Hfail. inversion Hfail.
Qed.

Lemma broadcast_isolates_failures_witness :
  forallb uncancelled (answers w_three) = true
  /\ fst (broadcast (py "hi") w_three) = Return tt
  /\ map target (since w_three (snd (broadcast (py "hi") w_three)))
     = [Some 1; Some 2; Some 3]
  /\ ~ In 2 (active_connections (snd (broadcast (py "hi") w_three))).
Proof.
  split; [reflexivity|].
  destruct (broadcast_isolates_failures (py "hi") w_three eq_refl)
    as (Hr & _ & Ht & _ & Hgone).
  split; [exact Hr|]. split; [exact Ht|].
  apply Hgone; vm_compute; lia.
Defined.

(** C2: the calls of a broadcast go to the connections that were in the list
    when it began, in that order and one call per entry, whatever is taken
    out of the list on the way: a member is neither skipped nor tried twice. *)
Theorem broadcast_iterates_snapshot (message : str) (w : World) :
  forallb uncancelled (answers w) = true ->
  let w' := snd (broadcast message w) in
  map target (since w w') = map Some (active_connections w)
  /\ (forall c,
        count (sent_to c) (since w w') = count_occ Nat.eq_dec (active_connections w) c)
  /\ (NoDup (active_connections w) ->
      forall c, In c (active_connections w) -> count (sent_to c) (since w w') = 1).
Proof.
  intros Hs w'. subst w'. rewrite (broadcast_since _ _ Hs).
  split; [apply target_attempts|].
  split; [intros c; apply count_sent_attempts|].
  intros Hnd c Hc. rewrite count_sent_attempts.
  now apply NoDup_count_occ'.
Qed.

Lemma broadcast_iterates_snapshot_witness :
  forallb uncancelled (answers w_failing) = true
  /\ map target (since w_failing (snd (broadcast (py "hi") w_failing)))
     = [Some 1; Some 2; Some 3]
  /\ count (sent_to 3) (since w_failing (snd (broadcast (py "hi") w_failing))) = 1.
Proof.
  split; [reflexivity|].
  destruct (broadcast_iterates_snapshot (py "hi") w_failing eq_refl) as (Ht & _ & Hone).
  split; [exact Ht|].
  apply Hone; [|simpl; tauto].
  repeat constructor; simpl; intuition discriminate.
Defined.

(** C9: when every call of a broadcast returns, the list of connections is
    after it what it was before; in general a connection none of whose calls
    failed keeps all its entries, and nothing enters the list. *)
Theorem broadcast_keeps_the_delivered (message : str) (w : World) :
  let w' := snd (broadcast message w) in
  (forallb returned (answers w) = true ->
   fst (broadcast message w) = Return tt
   /\ active_connections w' = active_connections w)
  /\ (forallb uncancelled (answers w) = true ->
      (forall c,
         count (failed_to c) (since w w') = 0 ->
         count_occ Nat.eq_dec (active_connections w') c
         = count_occ Nat.eq_dec (active_connections w) c)
      /\ (forall c, In c (active_connections w') -> In c (active_connections w))).
Proof.
  intros w'. subst w'. split.
  - intros Hall. rewrite (broadcast_run _ _ (returned_uncancelled _ Hall)).
    cbn [fst snd active_connections]. split; [reflexivity|].
    now apply pruned_all_returned.
  - intros Hs. rewrite (broadcast_since _ _ Hs). rewrite (broadcast_run _ _ Hs).
    cbn [snd active_connections]. split.
    + intros c Hc. rewrite (count_occ_pruned c _ message), Hc. apply Nat.sub_0_r.
    + intros c. apply pruned_incl.
Qed.

Lemma broadcast_keeps_the_delivered_witness :
  forallb returned (answers w_twice) = true
  /\ active_connections (snd (broadcast (py "hi") w_twice)) = active_connections w_twice
  /\ forallb uncancelled (answers w_three) = true
  /\ count (failed_to 3) (since w_three (snd (broadcast (py "hi") w_three))) = 0
  /\ count_occ Nat.eq_dec (active_connections (snd (broadcast (py "hi") w_three))) 3
     = count_occ Nat.eq_dec (active_connections w_three) 3.
Proof.
  split; [reflexivity|].
  split; [apply (proj1 (broadcast_keeps_the_delivered (py "hi") w_twice) eq_refl)|].
  split; [reflexivity|]. split; [reflexivity|].
  apply (proj2 (broadcast_keeps_the_delivered (py "hi") w_three) eq_refl).
  reflexivity.
Defined.

Lemma set_active_connections_same w :
  set_active_connections (active_connections w) w = w.
Proof. now destruct w. Qed.

Lemma count_occ_absent x l :
  count_occ Nat.eq_dec l x <= 1 -> ~ In x (discard x l).
Proof.
  intros H Hin. apply (count_occ_In Nat.eq_dec) in Hin.
  rewrite count_occ_discard_same in Hin.
  destruct (count_occ Nat.eq_dec l x) as [|[|n]]; simpl in Hin;
    [inversion Hin | inversion Hin | ].
  apply Nat.succ_le_mono in H. inversion H.
Qed.

Lemma discard_remove x l :
  list_contains x l = true -> list_remove x l = Some (discard x l).
Proof.
  intros H. unfold discard. now destruct (list_remove_present _ _ H) as [r ->].
Qed.

(** C4: disconnect never raises; it takes the websocket out of the list when
    it is there and leaves the world as it is when it is not; so a second
    disconnect of a websocket that has been taken out changes nothing. *)
Theorem disconnect_is_safe (websocket : WebSocket) (w : World) :
  let w' := snd (disconnect websocket w) in
  fst (disconnect websocket w) = Return tt
  /\ (list_contains websocket (active_connections w) = false -> w' = w)
  /\ (list_contains websocket (active_connections w) = true ->
      list_remove websocket (active_connections w) = Some (active_connections w')
      /\ S (length (active_connections w')) = length (active_connections w))
  /\ (count_occ Nat.eq_dec (active_connections w) websocket <= 1 ->
      list_contains websocket (active_connections w') = false
      /\ disconnect websocket w' = (Return tt, w')).
Proof.
  intros w'. subst w'. rewrite disconnect_run. cbn [fst snd].
  split; [reflexivity|]. split; [|split].
  - intros H. rewrite (discard_absent _ _ H). apply set_active_connections_same.
  - intros H. simpl. split; [now apply discard_remove | now apply length_discard].
  - intros H. apply count_occ_absent in H.
    assert (Hc : list_contains websocket (discard websocket (active_connections w)) = false).
    { destruct (list_contains websocket (discard websocket (active_connections w))) eqn:E;
        [|reflexivity].
      apply list_contains_In in E. contradiction. }
    split; [exact Hc|].
    rewrite disconnect_run. cbn [active_connections set_active_connections].
    now rewrite (discard_absent _ _ Hc).
Qed.

Lemma disconnect_is_safe_witness :
  list_contains 9 (active_connections w_three) = false
  /\ snd (disconnect 9 w_three) = w_three
  /\ list_contains 2 (active_connections w_three) = true
  /\ active_connections (snd (disconnect 2 w_three)) = [1; 3]
  /\ disconnect 2 (snd (disconnect 2 w_three)) = (Return tt, snd (disconnect 2 w_three)).
Proof.
  split; [reflexivity|].
  destruct (disconnect_is_safe 9 w_three) as (_ & Habsent & _).
  split; [exact (Habsent eq_refl)|].
  split; [reflexivity|].
  destruct (disconnect_is_safe 2 w_three) as (_ & _ & _ & Htwice).
  split; [reflexivity|]. apply Htwice. vm_compute. lia.
Defined.

(** C10: when a websocket is in the list several times, one disconnect takes
    out one entry of it, the first one, and leaves it in the list with the
    others; the entries of other websockets stay. *)
Theorem disconnect_removes_one_entry (websocket : WebSocket) (w : World) :
  2 <= count_occ Nat.eq_dec (active_connections w) websocket ->
  let w' := snd (disconnect websocket w) in
  S (count_occ Nat.eq_dec (active_connections w') websocket)
  = count_occ Nat.eq_dec (active_connections w) websocket
  /\ In websocket (active_connections w')
  /\ list_remove websocket (active_connections w) = Some (active_connections w')
  /\ (forall c, c <> websocket ->
        count_occ Nat.eq_dec (active_connections w') c
        = count_occ Nat.eq_dec (active_connections w) c)
  /\ S (length (active_connections w')) = length (active_connections w).
Proof.
  intros Htwo w'. subst w'. rewrite disconnect_run. cbn [snd].
  cbn [active_connections set_active_connections].
  assert (Hin : list_contains websocket (active_connections w) = true).
  { apply list_contains_count. eapply Nat.lt_le_trans; [|exact Htwo]. repeat constructor. }
  assert (Hcount : S (count_occ Nat.eq_dec (discard websocket (active_connections w)) websocket)
                   = count_occ Nat.eq_dec (active_connections w) websocket).
  { rewrite count_occ_discard_same.
    destruct (count_occ Nat.eq_dec (active_connections w) websocket); [inversion Htwo|].
    simpl. now rewrite Nat.sub_0_r. }
  split; [exact Hcount|]. split.
  - apply (count_occ_In Nat.eq_dec). rewrite <- Hcount in Htwo.
    now apply Nat.succ_le_mono in Htwo.
  - split; [now apply discard_remove|]. split.
    + intros c Hc. apply count_occ_discard_other. congruence.
    + now apply length_discard.
Qed.

Lemma disconnect_removes_one_entry_witness :
  2 <= count_occ Nat.eq_dec (active_connections w_twice) 4
  /\ In 4 (active_connections (snd (disconnect 4 w_twice)))
  /\ S (length (active_connections (snd (disconnect 4 w_twice)))) = 3.
Proof.
  assert (H : 2 <= count_occ Nat.eq_dec (active_connections w_twice) 4) by (vm_compute; lia).
  split; [exact H|].
  destruct (disconnect_removes_one_entry 4 w_twice H) as (_ & Hin & _ & _ & Hlen).
  split; [exact Hin | exact Hlen].
Defined.

(** ** Duplicates *)

Lemma run_ops_NoDup ops : forall w,
  NoDup (active_connections w) ->
  adds_fresh ops w = true ->
  NoDup (active_connections (run_ops ops w)).
Proof.
  induction ops as [|o rest IH]; intros w Hw Hfresh; [exact Hw|].
  cbn [adds_fresh] in Hfresh. apply andb_prop in Hfresh. destruct Hfresh as [Ho Hrest].
  unfold run_ops. cbn [fold_left]. apply IH; [|exact Hrest].
  apply step_NoDup; [exact Hw|]. cbn [adds_fresh]. now rewrite Ho.
Qed.

(** ** The receive loop *)

(** A broadcast awaits only [send_text], whose answers are all there. *)
Lemma broadcast_for_not_suspended connections message :
  forall w, fst (broadcast_for connections message w) <> Suspended.
Proof.
  induction connections as [|c rest IH]; intros w; [discriminate|].
  one_round w.
  - destruct (isinstance_Exception e); [|discriminate].
    rewrite guarded_remove. apply IH.
  - apply IH.
Qed.

Lemma broadcast_not_suspended message w :
  fst (broadcast message w) <> Suspended.
Proof. unfold broadcast, bind, snapshot. apply broadcast_for_not_suspended. Qed.

(** What a broadcast lets through to its caller is no [Exception]. *)
Lemma broadcast_for_raises connections message :
  forall w e, fst (broadcast_for connections message w) = Raise e ->
  isinstance_Exception e = false.
Proof.
  induction connections as [|c rest IH]; intros w e'; [discriminate|].
  one_round w.
  - destruct (isinstance_Exception e) eqn:He.
    + rewrite guarded_remove. apply IH.
    + cbn [raise fst]. now intros [= <-].
  - apply IH.
Qed.

Lemma broadcast_raises message w e :
  fst (broadcast message w) = Raise e -> isinstance_Exception e = false.
Proof. unfold broadcast, bind, snapshot. apply broadcast_for_raises. Qed.

(** A loop that is suspended goes on with what comes next. *)
Lemma receive_loop_resume websocket client_id inbox : forall more w w2,
  receive_loop websocket client_id inbox w = (Suspended, w2) ->
  receive_loop websocket client_id (inbox ++ more) w
  = receive_loop websocket client_id more w2.
Proof.
  induction inbox as [|[data|e] rest IH]; intros more w w2 H; simpl in *.
  - now inversion H.
  - destruct (str_eqb data ping); [now apply IH|].
    unfold bind in *. simpl in *.
    destruct (broadcast _ _) as [[[]|e|] w1] eqn:Hb; try discriminate.
    + now apply IH.
    + apply (f_equal fst) in Hb. now apply broadcast_not_suspended in Hb.
  - discriminate.
Qed.

(** A keepalive frame can be dropped from the inbox. *)
Lemma receive_loop_skips_ping websocket client_id before : forall after w,
  receive_loop websocket client_id (before ++ Data ping :: after) w
  = receive_loop websocket client_id (before ++ after) w.
Proof.
  induction before as [|[data|e] rest IH]; intros after w; simpl.
  - reflexivity.
  - destruct (str_eqb data ping); [apply IH|].
    unfold bind. simpl.
    destruct (broadcast _ _) as [[[]|e|] w1]; try reflexivity.
    apply IH.
  - reflexivity.
Qed.

(** C5: a keepalive frame is dropped: the loop goes on to the next
    [receive_text] in the same world (same list of connections, no call to
    the transport, no reading of the clock), and an inbox with the frame
    gives what the inbox without it gives, for the loop and for the
    endpoint. *)
Theorem ping_is_discarded (websocket : WebSocket) (client_id : Z) :
  (forall rest w,
     receive_loop websocket client_id (Data ping :: rest) w
     = receive_loop websocket client_id rest w)
  /\ (forall w, receive_loop websocket client_id [Data ping] w = (Suspended, w))
  /\ (forall before after w,
        receive_loop websocket client_id (before ++ Data ping :: after) w
        = receive_loop websocket client_id (before ++ after) w)
  /\ (forall before after w,
        websocket_endpoint websocket client_id (before ++ Data ping :: after) w
        = websocket_endpoint websocket client_id (before ++ after) w).
Proof.
  split; [reflexivity|]. split; [reflexivity|].
  split; [intros; apply receive_loop_skips_ping|].
  intros before after w. unfold websocket_endpoint, bind, try_except.
  destruct (connect websocket w) as [[[]|e|] w1]; try reflexivity.
  now rewrite receive_loop_skips_ping.
Qed.

(** The handling of one frame that is not the keepalive. *)
Lemma receive_loop_frame websocket client_id data rest w :
  str_eqb data ping = false ->
  forallb uncancelled (send_script w) = true ->
  receive_loop websocket client_id (Data data :: rest) w
  = receive_loop websocket client_id rest
      (snd (broadcast
              (json_dumps (chat_message client_id (strftime_HM (hd 0%N (clock w))) data))
              (snd (time_strftime w)))).
Proof.
  intros Hping Hs. cbn [receive_loop]. rewrite Hping.
  unfold bind at 1. unfold time_strftime. cbn [snd]. unfold bind at 1.
  rewrite broadcast_run by (apply forallb_firstn; exact Hs).
  reflexivity.
Qed.

Lemma frame_since message w :
  forallb uncancelled (send_script w) = true ->
  since w (snd (broadcast message (snd (time_strftime w))))
  = attempts (active_connections w) message (send_script w).
Proof.
  intros Hs.
  rewrite broadcast_run by (apply forallb_firstn; exact Hs).
  unfold since. simpl. rewrite skipn_app, skipn_all, Nat.sub_diag. reflexivity.
Qed.

(** C7: the message made from a frame is sent to every connection of the
    list, the sender's own websocket included when it is in the list; and in
    an endpoint whose accept returned it is in the list, so that the sender
    is sent its own message. *)
Theorem sender_gets_its_own_message
  (websocket : WebSocket) (client_id : Z) (data : str) (w : World) :
  str_eqb data ping = false ->
  forallb uncancelled (send_script w) = true ->
  let payload :=
    json_dumps (chat_message client_id (strftime_HM (hd 0%N (clock w))) data) in
  (forall c, In c (active_connections w) ->
     exists a,
       In (SendText c payload a)
          (since w (snd (receive_loop websocket client_id [Data data] w))))
  /\ (In websocket (active_connections w) ->
      exists a,
        In (SendText websocket payload a)
           (since w (snd (receive_loop websocket client_id [Data data] w))))
  /\ (answer_of (accept_script w) = None ->
      exists a,
        In (SendText websocket payload a)
           (since w (snd (websocket_endpoint websocket client_id [Data data] w)))).
Proof.
  intros Hping Hs payload.
  assert (Hall : forall c, In c (active_connections w) ->
            exists a, In (SendText c payload a)
                         (since w (snd (receive_loop websocket client_id [Data data] w)))).
  { intros c Hc. rewrite (receive_loop_frame websocket client_id data [] w Hping Hs). cbn [receive_loop snd].
    rewrite (frame_since _ _ Hs). now apply attempts_member. }
  split; [exact Hall|]. split; [apply Hall|].
  intros Hacc. unfold websocket_endpoint. unfold bind at 1.
  rewrite connect_run, Hacc. unfold try_except.
  rewrite (receive_loop_frame websocket client_id data [] _ Hping) by exact Hs.
  cbn [receive_loop snd clock time_strftime active_connections send_script
       accept_script trace].
  rewrite broadcast_run by (apply forallb_firstn; exact Hs).
  cbn [snd clock time_strftime active_connections send_script accept_script trace].
  destruct (attempts_member (active_connections w ++ [websocket]) payload
              (send_script w) websocket) as [a Ha].
  { apply in_or_app. right. simpl. tauto. }
  exists a. erewrite since_app.
  2:{ cbn [trace]. rewrite <- app_assoc. reflexivity. }
  apply in_or_app. now right.
Qed.

Lemma sender_gets_its_own_message_witness :
  str_eqb (py "hello") ping = false
  /\ forallb uncancelled (send_script w_two) = true
  /\ answer_of (accept_script w_two) = None
  /\ exists a,
       In (SendText 3
             (json_dumps (chat_message 3 (strftime_HM (hd 0%N (clock w_two))) (py "hello")))
             a)
          (since w_two (snd (websocket_endpoint 3 3 [Data (py "hello")] w_two))).
Proof.
  split; [reflexivity|]. split; [reflexivity|]. split; [reflexivity|].
  apply (sender_gets_its_own_message 3 3 (py "hello") w_two eq_refl eq_refl).
  reflexivity.
Defined.

(** ** The end of a session *)

(** An endpoint that is suspended has connected and sits in its loop. *)
Lemma endpoint_suspended websocket client_id inbox w w2 :
  websocket_endpoint websocket client_id inbox w = (Suspended, w2) ->
  exists w1,
    connect websocket w = (Return tt, w1)
    /\ receive_loop websocket client_id inbox w1 = (Suspended, w2).
Proof.
  unfold websocket_endpoint, bind, try_except. intros H.
  destruct (connect websocket w) as [[[]|e|] w1] eqn:Hc.
  - exists w1. split; [reflexivity|].
    destruct (receive_loop websocket client_id inbox w1) as [[[]|e|] w3] eqn:Hl;
      try discriminate; [|exact H].
    destruct (isinstance_WebSocketDisconnect e); [|destruct (isinstance_Exception e)];
      try rewrite disconnect_run in H; discriminate.
  - discriminate.
  - rewrite connect_run in Hc. destruct (answer_of (accept_script w)); discriminate.
Qed.

(** C8: when the [receive_text] an endpoint is suspended in raises, be it
    WebSocketDisconnect or another Exception, the endpoint returns, having
    done what disconnect does and nothing more: no call to the transport, the
    websocket taken out of the list, which is one entry shorter when the
    websocket was in it; what the inbox holds after that is never read. *)
Theorem receive_error_removes_connection
  (websocket : WebSocket) (client_id : Z) (inbox later : list received)
  (e : exn) (w w2 : World) :
  isinstance_Exception e = true ->
  websocket_endpoint websocket client_id inbox w = (Suspended, w2) ->
  let w' := snd (disconnect websocket w2) in
  websocket_endpoint websocket client_id (inbox ++ Fails e :: later) w = (Return tt, w')
  /\ trace w' = trace w2
  /\ send_script w' = send_script w2
  /\ active_connections w' = discard websocket (active_connections w2)
  /\ (list_contains websocket (active_connections w2) = true ->
      S (length (active_connections w')) = length (active_connections w2))
  /\ (list_contains websocket (active_connections w2) = false ->
      active_connections w' = active_connections w2).
Proof.
  intros He Hsusp w'. subst w'.
  destruct (endpoint_suspended _ _ _ _ Hsusp) as (w1 & Hc & Hl).
  rewrite disconnect_run. cbn [snd set_active_connections trace send_script
                               active_connections].
  split.
  - unfold websocket_endpoint. unfold bind at 1. rewrite Hc. unfold try_except.
    rewrite (receive_loop_resume _ _ _ _ _ Hl). cbn [receive_loop raise].
    rewrite He.
    destruct (isinstance_WebSocketDisconnect e); now rewrite disconnect_run.
  - repeat split; try reflexivity.
    + apply length_discard.
    + apply discard_absent.
Qed.

Lemma receive_error_removes_connection_witness :
  isinstance_Exception WebSocketDisconnect = true
  /\ websocket_endpoint 3 3 [] w_two
     = (Suspended, mkWorld [1; 2; 3] [] [] [45296%N] [Accept 3 None])
  /\ websocket_endpoint 3 3 [Fails WebSocketDisconnect] w_two
     = (Return tt, mkWorld [1; 2] [] [] [45296%N] [Accept 3 None])
  /\ websocket_endpoint 3 3 [Fails RuntimeError] w_two
     = (Return tt, mkWorld [1; 2] [] [] [45296%N] [Accept 3 None]).
Proof.
  split; [reflexivity|]. split; [reflexivity|]. split.
  - apply (receive_error_removes_connection 3 3 [] [] WebSocketDisconnect w_two
             eq_refl eq_refl).
  - apply (receive_error_removes_connection 3 3 [] [] RuntimeError w_two
             eq_refl eq_refl).
Defined.

(** ** The payload read back *)

Lemma unhex_hex_digit d : (d < 16)%N -> unhex_digit (hex_digit d) = Some d.
Proof.
  intros H.
  assert (Hd : (d = 0 \/ d = 1 \/ d = 2 \/ d = 3 \/ d = 4 \/ d = 5 \/ d = 6 \/ d = 7
                \/ d = 8 \/ d = 9 \/ d = 10 \/ d = 11 \/ d = 12 \/ d = 13 \/ d = 14
                \/ d = 15)%N) by lia.
  repeat (destruct Hd as [->|Hd]; [reflexivity|]). now subst.
Qed.

Lemma hex4_digits n :
  (n < 65536)%N ->
  (4096 * ((n / 4096) mod 16) + 256 * ((n / 256) mod 16) + 16 * ((n / 16) mod 16)
   + n mod 16 = n)%N.
Proof.
  intros H. zify. Z.to_euclidean_division_equations. lia.
Qed.

Lemma unhex4_hex4 n :
  (n < 65536)%N ->
  unhex4 (hex_digit ((n / 4096) mod 16)) (hex_digit ((n / 256) mod 16))
         (hex_digit ((n / 16) mod 16)) (hex_digit (n mod 16)) = Some n.
Proof.
  intros H. unfold unhex4.
  rewrite !unhex_hex_digit by (apply N.mod_lt; discriminate).
  now rewrite hex4_digits.
Qed.

Lemma land_high_low a b : (b < 1024)%N -> N.land (1024 * a) b = 0%N.
Proof.
  intros Hb. apply N.bits_inj. intros m.
  rewrite N.land_spec, N.bits_0.
  destruct (N.lt_ge_cases m 10) as [Hm|Hm].
  - rewrite N.mul_comm. change 1024%N with (2 ^ 10)%N.
    now rewrite N.mul_pow2_bits_low.
  - destruct (N.eq_dec b 0) as [->|Hb0]; [now rewrite N.bits_0, andb_false_r|].
    rewrite (N.bits_above_log2 b m), andb_false_r; [reflexivity|].
    apply N.lt_le_trans with (m := 10%N); [|exact Hm].
    apply N.log2_lt_pow2; [lia | exact Hb].
Qed.

Lemma lor_high_low a b : (b < 1024)%N -> N.lor (1024 * a) b = (1024 * a + b)%N.
Proof.
  intros Hb. pose proof (land_high_low a Hb) as H.
  rewrite <- (N.lxor_lor _ _ H). symmetry. now apply N.add_nocarry_lxor.
Qed.

Lemma high_surrogate v :
  (v < 1048576)%N ->
  N.lor 55296 (N.land (N.shiftr v 10) 1023) = (55296 + v / 1024)%N.
Proof.
  intros Hv. change 1023%N with (N.ones 10). rewrite N.land_ones.
  rewrite N.shiftr_div_pow2. change (2 ^ 10)%N with 1024%N.
  assert (H : (v / 1024 < 1024)%N) by (apply N.Div0.div_lt_upper_bound; exact Hv).
  rewrite N.mod_small by exact H.
  change 55296%N with (1024 * 54)%N. now apply lor_high_low.
Qed.

Lemma low_surrogate v :
  N.lor 56320 (N.land v 1023) = (56320 + v mod 1024)%N.
Proof.
  change 1023%N with (N.ones 10). rewrite N.land_ones. change (2 ^ 10)%N with 1024%N.
  change 56320%N with (1024 * 55)%N. apply lor_high_low.
  apply N.mod_lt. discriminate.
Qed.

Lemma scan_quote s : scanstring (34%N :: s) = Some ([], s).
Proof. reflexivity. Qed.

Lemma scan_plain c s :
  c <> 34%N -> c <> 92%N -> (32 <= c)%N ->
  scanstring (c :: s) = cons_char c (scanstring s).
Proof.
  intros H34 H92 H32. cbn [scanstring].
  apply N.eqb_neq in H34, H92. rewrite H34, H92.
  destruct (N.ltb_spec c 32) as [H|H]; [|reflexivity].
  now apply N.lt_nge in H.
Qed.

Lemma scan_u_single h1 h2 h3 h4 uni s :
  unhex4 h1 h2 h3 h4 = Some uni ->
  ((55296 <=? uni) && (uni <=? 56319))%N = false ->
  scanstring (92 :: 117 :: h1 :: h2 :: h3 :: h4 :: s)%N = cons_char uni (scanstring s).
Proof.
  intros Hu Hh. cbn [scanstring N.eqb Pos.eqb]. now rewrite Hu, Hh.
Qed.

Lemma scan_u_pair h1 h2 h3 h4 l1 l2 l3 l4 uni uni2 s :
  unhex4 h1 h2 h3 h4 = Some uni ->
  ((55296 <=? uni) && (uni <=? 56319))%N = true ->
  unhex4 l1 l2 l3 l4 = Some uni2 ->
  ((56320 <=? uni2) && (uni2 <=? 57343))%N = true ->
  scanstring (92 :: 117 :: h1 :: h2 :: h3 :: h4 :: 92 :: 117 :: l1 :: l2 :: l3 :: l4 :: s)%N
  = cons_char (65536 + (1024 * (uni - 55296) + (uni2 - 56320)))%N (scanstring s).
Proof.
  intros Hu Hh Hu2 Hl. cbn [scanstring N.eqb Pos.eqb andb]. now rewrite Hu, Hh, Hu2, Hl.
Qed.

Lemma scalar_not_high c :
  scalar c = true -> ((55296 <=? c) && (c <=? 56319))%N = false.
Proof.
  unfold scalar. intros Hc.
  destruct (N.leb_spec 55296 c), (N.leb_spec c 56319); try reflexivity.
  destruct (N.ltb_spec c 55296), (N.ltb_spec 57343 c); simpl in Hc; try discriminate; lia.
Qed.

Lemma scalar_le c : scalar c = true -> (c <= 1114111)%N.
Proof.
  unfold scalar. intros Hc.
  destruct (N.ltb_spec c 55296), (N.ltb_spec 57343 c), (N.leb_spec c 1114111);
    simpl in Hc; try discriminate; lia.
Qed.

(** One escaped character is read back as the character. *)
Lemma scan_escape_char c s :
  scalar c = true ->
  scanstring (escape_char c ++ s) = cons_char c (scanstring s).
Proof.
  intros Hc. unfold escape_char.
  destruct (N.eqb_spec c 34) as [->|H34]; [reflexivity|].
  destruct (N.eqb_spec c 92) as [->|H92]; [reflexivity|].
  destruct (N.eqb_spec c 10) as [->|H10]; [reflexivity|].
  destruct (N.eqb_spec c 13) as [->|H13]; [reflexivity|].
  destruct (N.eqb_spec c 9) as [->|H9]; [reflexivity|].
  destruct (N.eqb_spec c 8) as [->|H8]; [reflexivity|].
  destruct (N.eqb_spec c 12) as [->|H12]; [reflexivity|].
  destruct (N.leb_spec 32 c) as [H32|H32]; cbn [andb].
  - destruct (N.leb_spec c 126) as [H126|H126].
    + now apply scan_plain.
    + destruct (N.ltb_spec c 65536) as [Hbmp|Hbmp].
      * apply scan_u_single; [now apply unhex4_hex4 | now apply scalar_not_high].
      * pose proof (scalar_le _ Hc) as Hmax.
        assert (Hv : (c - 65536 < 1048576)%N) by lia.
        cbv zeta. rewrite (high_surrogate Hv), low_surrogate.
        assert (Hq : ((c - 65536) / 1024 < 1024)%N)
          by (apply N.Div0.div_lt_upper_bound; exact Hv).
        assert (Hr : ((c - 65536) mod 1024 < 1024)%N) by (apply N.mod_lt; discriminate).
        unfold u_escape, hex4. cbn [app].
        rewrite scan_u_pair with (uni := (55296 + (c - 65536) / 1024)%N)
                                 (uni2 := (56320 + (c - 65536) mod 1024)%N).
        -- f_equal. pose proof (N.div_mod (c - 65536) 1024 ltac:(discriminate)) as H.
           rewrite !N.add_comm with (n := 55296%N), !N.add_comm with (n := 56320%N).
           rewrite !N.add_sub, <- H, N.add_comm. apply N.sub_add. exact Hbmp.
        -- apply unhex4_hex4. revert Hq. generalize ((c - 65536) / 1024)%N. lia.
        -- revert Hq. generalize ((c - 65536) / 1024)%N. intros q Hq.
           apply andb_true_intro. split; apply N.leb_le; lia.
        -- apply unhex4_hex4. revert Hr. generalize ((c - 65536) mod 1024)%N. lia.
        -- revert Hr. generalize ((c - 65536) mod 1024)%N. intros r Hr.
           apply andb_true_intro. split; apply N.leb_le; lia.
  - destruct (N.ltb_spec c 65536) as [Hbmp|Hbmp]; [|clear - H32 Hbmp; lia].
    apply scan_u_single; [now apply unhex4_hex4 | now apply scalar_not_high].
Qed.

(** A string literal is read back as the string it was made from. *)
Lemma scan_escape s : forall rest,
  forallb scalar s = true ->
  scanstring (escape s ++ 34%N :: rest) = Some (s, rest).
Proof.
  induction s as [|c s IH]; intros rest Hs; [reflexivity|].
  cbn [forallb] in Hs. apply andb_prop in Hs. destruct Hs as [Hc Hs].
  unfold escape in *. cbn [flat_map]. rewrite <- app_assoc.
  rewrite (scan_escape_char c _ Hc), IH by exact Hs. reflexivity.
Qed.

Lemma expect_app prefix s : expect prefix (prefix ++ s) = Some s.
Proof.
  induction prefix as [|p prefix IH]; [reflexivity|].
  simpl. now rewrite N.eqb_refl.
Qed.

Lemma span_number_app digits rest :
  forallb is_sign_or_digit digits = true ->
  span_number rest = ([], rest) ->
  span_number (digits ++ rest) = (digits, rest).
Proof.
  intros Hd Hrest. induction digits as [|d digits IH]; [exact Hrest|].
  simpl in *. apply andb_prop in Hd. destruct Hd as [Hd Hds].
  rewrite Hd, (IH Hds). reflexivity.
Qed.

Lemma show_py s : show (py s) = s.
Proof.
  unfold show, py. rewrite map_map.
  rewrite (map_ext _ (fun a => a)) by apply ascii_N_embedding.
  rewrite map_id. apply string_of_list_ascii_of_string.
Qed.

Lemma digits_of_uint d :
  forallb is_sign_or_digit (py (NilEmpty.string_of_uint d)) = true.
Proof. induction d; simpl; auto. Qed.

Lemma digits_of_int i :
  forallb is_sign_or_digit (py (NilZero.string_of_int i)) = true.
Proof.
  destruct i as [d|d]; simpl.
  - destruct d; try apply digits_of_uint. reflexivity.
  - destruct d; try apply digits_of_uint. reflexivity.
Qed.

(** The decimal writing of an integer is read back as the integer. *)
Lemma scan_int_repr z rest :
  span_number rest = ([], rest) ->
  scan_int (py (NilZero.string_of_int (Z.to_int z)) ++ rest) = Some (z, rest).
Proof.
  intros Hrest. unfold scan_int.
  rewrite span_number_app by (apply digits_of_int || exact Hrest). cbn [fst snd].
  rewrite show_py, NilZero.isi.
  - now rewrite DecimalZ.of_to.
  - destruct z; simpl; try discriminate.
    intros [= H]. now apply DecimalPos.Unsigned.to_uint_nonnil in H.
  - destruct z; simpl; try discriminate.
    intros [= H]. now apply DecimalPos.Unsigned.to_uint_nonnil in H.
Qed.

(** The payload, piece by piece. *)
Lemma json_dumps_chat_message client_id timestamp data :
  json_dumps (chat_message client_id timestamp data)
  = (py "{" ++ quote ++ py "client_id" ++ quote ++ py ": ")
      ++ py (NilZero.string_of_int (Z.to_int client_id))
      ++ (py ", " ++ quote ++ py "timestamp" ++ quote ++ py ": " ++ quote)
      ++ escape timestamp
      ++ 34%N :: (py ", " ++ quote ++ py "message" ++ quote ++ py ": " ++ quote)
      ++ escape data
      ++ 34%N :: py "}".
Proof.
  unfold json_dumps, chat_message, dumps_items, dumps_item, dumps_value,
    encode_basestring_ascii, quote.
  cbn [fst snd]. repeat rewrite <- app_assoc. reflexivity.
Qed.

(** The payload is read back as the three values it was made from. *)
Lemma read_json_dumps client_id timestamp data :
  forallb scalar timestamp = true ->
  forallb scalar data = true ->
  read_chat_message (json_dumps (chat_message client_id timestamp data))
  = Some (client_id, timestamp, data).
Proof.
  intros Ht Hd. rewrite json_dumps_chat_message. unfold read_chat_message.
  rewrite expect_app, scan_int_repr by reflexivity.
  rewrite expect_app, scan_escape by exact Ht.
  rewrite expect_app, scan_escape by exact Hd.
  reflexivity.
Qed.

(** ** The timestamp *)

Lemma tm_hour_lt t : (tm_hour t < 24)%N.
Proof. unfold tm_hour. apply N.mod_lt. discriminate. Qed.

Lemma tm_min_lt t : (tm_min t < 60)%N.
Proof. unfold tm_min. apply N.mod_lt. discriminate. Qed.

(** The seconds do not show. *)
Lemma strftime_HM_minute t : strftime_HM (60 * (t / 60)) = strftime_HM t.
Proof.
  unfold strftime_HM, tm_hour, tm_min.
  assert (H60 : (60 * (t / 60) / 60 = t / 60)%N)
    by (rewrite N.mul_comm; apply N.div_mul; discriminate).
  assert (H3600 : (60 * (t / 60) / 3600 = t / 3600)%N).
  { change 3600%N with (60 * 60)%N.
    now rewrite <- !N.Div0.div_div, H60. }
  now rewrite H60, H3600.
Qed.

Lemma scalar_two_digits n : (n < 100)%N -> forallb scalar (two_digits n) = true.
Proof.
  intros Hn. unfold two_digits, digit, scalar. cbn [forallb].
  assert (H1 : (n / 10 < 10)%N) by (apply N.Div0.div_lt_upper_bound; exact Hn).
  assert (H2 : (n mod 10 < 10)%N) by (apply N.mod_lt; discriminate).
  revert H1 H2. generalize (n / 10)%N (n mod 10)%N. intros a b Ha Hb.
  assert (Hx : (48 + a <? 55296)%N = true) by (apply N.ltb_lt; lia).
  assert (Hy : (48 + b <? 55296)%N = true) by (apply N.ltb_lt; lia).
  now rewrite Hx, Hy.
Qed.

Lemma scalar_strftime_HM t : forallb scalar (strftime_HM t) = true.
Proof.
  unfold strftime_HM. rewrite !forallb_app.
  rewrite !scalar_two_digits; [reflexivity | |].
  - pose proof (tm_min_lt t). lia.
  - pose proof (tm_hour_lt t). lia.
Qed.

(** ** A frame of chat *)

(** C6: a frame that is not the keepalive, the empty one included, is
    answered by one broadcast, after which the loop awaits the next frame:
    one [send_text] per entry of the list, each with the same payload; the
    payload is the JSON object of the wire schema, and a reader gets from it
    the client_id of the endpoint, the clock's hour and minute as HH:MM and
    the frame as it came. *)
Theorem frame_becomes_one_chat_message
  (websocket : WebSocket) (client_id : Z) (data : str) (rest : list received)
  (w : World) :
  str_eqb data ping = false ->
  forallb uncancelled (send_script w) = true ->
  let now := hd 0%N (clock w) in
  let timestamp := strftime_HM now in
  let payload := json_dumps (chat_message client_id timestamp data) in
  let w' := snd (broadcast payload (snd (time_strftime w))) in
  receive_loop websocket client_id (Data data :: rest) w
  = receive_loop websocket client_id rest w'
  /\ receive_loop websocket client_id [Data data] w = (Suspended, w')
  /\ since w w' = attempts (active_connections w) payload (send_script w)
  /\ (forall c,
        count (sent_to c) (since w w') = count_occ Nat.eq_dec (active_connections w) c)
  /\ (forall ev, In ev (since w w') -> exists c a, ev = SendText c payload a)
  /\ payload
     = (py "{" ++ quote ++ py "client_id" ++ quote ++ py ": ")
         ++ py (NilZero.string_of_int (Z.to_int client_id))
         ++ (py ", " ++ quote ++ py "timestamp" ++ quote ++ py ": ")
         ++ encode_basestring_ascii timestamp
         ++ (py ", " ++ quote ++ py "message" ++ quote ++ py ": ")
         ++ encode_basestring_ascii data
         ++ py "}"
  /\ (forallb scalar data = true ->
      read_chat_message payload = Some (client_id, timestamp, data))
  /\ timestamp = two_digits (tm_hour now) ++ py ":" ++ two_digits (tm_min now)
  /\ (tm_hour now < 24)%N
  /\ (tm_min now < 60)%N
  /\ strftime_HM (60 * (now / 60)) = timestamp.
Proof.
  intros Hping Hs now timestamp payload w'.
  assert (Hsince : since w w' = attempts (active_connections w) payload (send_script w))
    by (apply frame_since; exact Hs).
  split; [apply receive_loop_frame; assumption|].
  split; [apply (receive_loop_frame websocket client_id data [] w); assumption|].
  split; [exact Hsince|]. rewrite Hsince.
  split; [intros c; apply count_sent_attempts|].
  split.
  { intros ev Hev. apply message_attempts in Hev.
    destruct Hev as (c & a & -> & _). eauto. }
  split.
  { subst payload. rewrite json_dumps_chat_message.
    unfold encode_basestring_ascii, quote. cbn [app].
    repeat rewrite <- app_assoc. reflexivity. }
  split; [intros Hd; apply read_json_dumps; [apply scalar_strftime_HM | exact Hd]|].
  split; [reflexivity|].
  split; [apply tm_hour_lt|].
  split; [apply tm_min_lt | apply strftime_HM_minute].
Qed.

Lemma frame_becomes_one_chat_message_witness :
  str_eqb [] ping = false
  /\ forallb uncancelled (send_script w_late) = true
  /\ forallb scalar [] = true
  /\ receive_loop 2 7 [Data []] w_late
     = (Suspended,
        snd (broadcast (json_dumps (chat_message 7 (py "23:59") []))
               (snd (time_strftime w_late))))
  /\ read_chat_message (json_dumps (chat_message 7 (py "23:59") []))
     = Some (7%Z, py "23:59", []).
Proof.
  split; [reflexivity|]. split; [reflexivity|]. split; [reflexivity|].
  destruct (frame_becomes_one_chat_message 2 7 [] [] w_late eq_refl eq_refl)
    as (_ & Hloop & _ & _ & _ & _ & Hread & _).
  split; [exact Hloop | exact (Hread eq_refl)].
Defined.

(** ** The scenarios of the specification, run *)

(** Scenario A: two connections, the first one says hello; both are sent the
    message and nothing else. *)
Example scenario_A :
  receive_loop 1 1 [Data (py "hello")] w_two
  = (Suspended,
     mkWorld [1; 2] [] [] []
       [SendText 1 (at_1234 (py "hello")) None; SendText 2 (at_1234 (py "hello")) None]).
Proof. reflexivity. Qed.

(** Scenario B: the transport of the second connection is closed; the first
    message costs it its entry, the next one goes to the two others only. *)
Example scenario_B :
  receive_loop 1 1 [Data (py "hi"); Data (py "again")] w_scenario_b
  = (Suspended,
     mkWorld [1; 3] [] [] []
       [SendText 1 (at_1234 (py "hi")) None;
        SendText 2 (at_1234 (py "hi")) (Some RuntimeError);
        SendText 3 (at_1234 (py "hi")) None;
        SendText 1 (at_1235 (py "again")) None;
        SendText 3 (at_1235 (py "again")) None]).
Proof. reflexivity. Qed.

(** Scenario C: a keepalive, then a message: one message goes out. *)
Example scenario_C :
  websocket_endpoint 1 1 [Data ping; Data (py "real message")] w_empty
  = (Suspended,
     mkWorld [1] [] [] []
       [Accept 1 None; SendText 1 (at_1234 (py "real message")) None]).
Proof. reflexivity. Qed.

(** Scenario D: a connection comes and goes without a word. *)
Example scenario_D :
  websocket_endpoint 3 3 [Fails WebSocketDisconnect] w_two
  = (Return tt, mkWorld [1; 2] [] [] [45296%N] [Accept 3 None]).
Proof. reflexivity. Qed.

(** The payload of scenario A on the wire. *)
Example payload_on_the_wire :
  show (at_1234 (py "hello"))
  = String "{" (String (ascii_of_N 34) "client_id"
      ++ String (ascii_of_N 34) ": 1, "
      ++ String (ascii_of_N 34) "timestamp"
      ++ String (ascii_of_N 34) ": "
      ++ String (ascii_of_N 34) "12:34"
      ++ String (ascii_of_N 34) ", "
      ++ String (ascii_of_N 34) "message"
      ++ String (ascii_of_N 34) ": "
      ++ String (ascii_of_N 34) "hello"
      ++ String (ascii_of_N 34) "}")%string.
Proof. reflexivity. Qed.

(** * Further properties of the code *)

(** ** What a broadcast does not touch *)

Lemma broadcast_for_frame connections message : forall w r w',
  broadcast_for connections message w = (r, w') ->
  accept_script w' = accept_script w
  /\ clock w' = clock w
  /\ (exists new,
        trace w' = trace w ++ new
        /\ Forall (fun ev => exists c a, ev = SendText c message a /\ In c connections) new)
  /\ length (active_connections w') <= length (active_connections w)
  /\ (forall c, In c (active_connections w') -> In c (active_connections w)).
Proof.
  induction connections as [|x rest IH]; intros w r w' H.
  - injection H as _ <-. repeat split; auto. exists []. now rewrite app_nil_r.
  - cbn [broadcast_for] in H. unfold bind at 1 in H. unfold try_except, send_text in H.
    assert (Hlater : forall w1 a,
              broadcast_for rest message w1 = (r, w') ->
              accept_script w1 = accept_script w ->
              clock w1 = clock w ->
              trace w1 = trace w ++ [SendText x message a] ->
              length (active_connections w1) <= length (active_connections w) ->
              (forall c, In c (active_connections w1) -> In c (active_connections w)) ->
              accept_script w' = accept_script w
              /\ clock w' = clock w
              /\ (exists new,
                    trace w' = trace w ++ new
                    /\ Forall (fun ev => exists c a,
                                 ev = SendText c message a /\ In c (x :: rest)) new)
              /\ length (active_connections w') <= length (active_connections w)
              /\ (forall c, In c (active_connections w') -> In c (active_connections w))).
    { intros w1 a Hrun Ha1 Hc1 Ht1 Hlen1 Hin1.
      destruct (IH _ _ _ Hrun) as (Ha & Hc & (new & Ht & Hnew) & Hlen & Hin).
      split; [congruence|]. split; [congruence|]. split.
      - exists (SendText x message a :: new). split.
        + rewrite Ht, Ht1. now rewrite <- app_assoc.
        + constructor; [exists x, a; simpl; auto|].
          eapply Forall_impl; [|exact Hnew].
          intros ev (c & a' & -> & Hc'). exists c, a'. simpl. auto.
      - split; [etransitivity; eassumption | auto]. }
    destruct (answer_of (send_script w)) as [e|].
    + destruct (isinstance_Exception e).
      * rewrite guarded_remove in H.
        apply (Hlater _ (Some e) H); try reflexivity;
          cbn [active_connections set_active_connections].
        -- destruct (list_contains x (active_connections w)) eqn:Hx.
           ++ rewrite <- (length_discard _ _ Hx). auto.
           ++ now rewrite (discard_absent _ _ Hx).
        -- intros c. apply discard_incl.
      * injection H as _ <-. cbn [accept_script clock trace active_connections].
        repeat split; auto.
        exists [SendText x message (Some e)]. split; [reflexivity|].
        constructor; [|constructor]. exists x, (Some e). simpl. auto.
    + apply (Hlater _ None H); try reflexivity; auto.
Qed.

(** X1: whatever the answers of the transport, the cancellation of the task
    included, a broadcast calls nothing but [send_text], with its message
    and on connections that were in the list when it began: it leaves the
    accept answers and the clock unread, keeps the calls made before it, and
    lets no connection into the list, which never grows. *)
Theorem broadcast_touches_little (message : str) (w : World) :
  accept_script (snd (broadcast message w)) = accept_script w
  /\ clock (snd (broadcast message w)) = clock w
  /\ (exists new,
        trace (snd (broadcast message w)) = trace w ++ new
        /\ Forall (fun ev => exists c a,
                     ev = SendText c message a /\ In c (active_connections w)) new)
  /\ length (active_connections (snd (broadcast message w)))
     <= length (active_connections w)
  /\ (forall c, In c (active_connections (snd (broadcast message w))) ->
        In c (active_connections w)).
Proof.
  destruct (broadcast message w) as [r w'] eqn:H. cbn [snd].
  unfold broadcast, bind, snapshot in H. now apply broadcast_for_frame in H.
Qed.

Lemma broadcast_touches_little_witness :
  In 3 (active_connections (snd (broadcast (py "hi") w_cancelled)))
  /\ In 3 (active_connections w_cancelled)
  /\ clock (snd (broadcast (py "hi") w_cancelled)) = clock w_cancelled.
Proof.
  assert (H : In 3 (active_connections (snd (broadcast (py "hi") w_cancelled))))
    by (vm_compute; tauto).
  destruct (broadcast_touches_little (py "hi") w_cancelled) as (_ & Hc & _ & _ & Hin).
  split; [exact H|]. split; [exact (Hin 3 H) | exact Hc].
Defined.

(** ** The ways out of the endpoint *)

(** X2: when [accept] raises, the endpoint raises the same exception,
    WebSocketDisconnect included, since [connect] stands before the [try]:
    nothing of the inbox is read, nothing is sent, the clock is not read, and
    the list of connections is what it was. *)
Theorem handshake_failure_propagates
  (websocket : WebSocket) (client_id : Z) (inbox : list received) (e : exn) (w : World) :
  answer_of (accept_script w) = Some e ->
  websocket_endpoint websocket client_id inbox w
  = (Raise e,
     mkWorld (active_connections w) (tl (accept_script w)) (send_script w) (clock w)
             (trace w ++ [Accept websocket (Some e)])).
Proof.
  intros He. unfold websocket_endpoint. unfold bind at 1.
  now rewrite connect_run, He.
Qed.

Lemma handshake_failure_propagates_witness :
  answer_of (accept_script w_refusing) = Some RuntimeError
  /\ websocket_endpoint 3 3 [Data (py "hi"); Fails WebSocketDisconnect] w_refusing
     = (Raise RuntimeError,
        mkWorld [1; 2] [] [] [45296%N] [Accept 3 (Some RuntimeError)]).
Proof.
  split; [reflexivity|].
  apply (@handshake_failure_propagates 3 3
           [Data (py "hi"); Fails WebSocketDisconnect] RuntimeError w_refusing eq_refl).
Defined.

Lemma receive_loop_no_return websocket client_id inbox : forall w w',
  receive_loop websocket client_id inbox w <> (Return tt, w').
Proof.
  induction inbox as [|[data|e] rest IH]; intros w w'; simpl; try discriminate.
  destruct (str_eqb data ping); [apply IH|].
  unfold bind. simpl. destruct (broadcast _ _) as [[[]|e|] w1]; try discriminate.
  apply IH.
Qed.

(** X3: an exception that leaves the endpoint is the one [accept] raised,
    or is no [Exception] (the cancellation of the task): no error of
    [receive_text] or of a send reaches the caller of the endpoint. *)
Theorem endpoint_raises_little
  (websocket : WebSocket) (client_id : Z) (inbox : list received)
  (e : exn) (w w' : World) :
  websocket_endpoint websocket client_id inbox w = (Raise e, w') ->
  answer_of (accept_script w) = Some e \/ isinstance_Exception e = false.
Proof.
  unfold websocket_endpoint. unfold bind at 1. rewrite connect_run.
  destruct (answer_of (accept_script w)) as [e0|].
  - intros [= <- _]. now left.
  - unfold try_except.
    destruct (receive_loop websocket client_id inbox _) as [[[]|e1|] w1]; try discriminate.
    destruct (isinstance_WebSocketDisconnect e1);
      [rewrite disconnect_run; discriminate|].
    destruct (isinstance_Exception e1) eqn:He1;
      [rewrite disconnect_run; discriminate|].
    intros [= <- _]. now right.
Qed.

Lemma endpoint_raises_little_witness :
  websocket_endpoint 3 3 [Fails CancelledError] w_two
  = (Raise CancelledError, mkWorld [1; 2; 3] [] [] [45296%N] [Accept 3 None])
  /\ (answer_of (accept_script w_two) = Some CancelledError
      \/ isinstance_Exception CancelledError = false).
Proof.
  split; [reflexivity|].
  apply (endpoint_raises_little 3 3 [Fails CancelledError] w_two eq_refl).
Defined.

(** X4: when the [receive_text] an endpoint is suspended in raises what is
    no [Exception] (the cancellation of the task), neither [except] clause
    takes it: the endpoint raises it and the world stays as it was, the
    websocket still in the list if it was there. *)
Theorem cancellation_skips_cleanup
  (websocket : WebSocket) (client_id : Z) (inbox later : list received)
  (e : exn) (w w2 : World) :
  isinstance_Exception e = false ->
  websocket_endpoint websocket client_id inbox w = (Suspended, w2) ->
  websocket_endpoint websocket client_id (inbox ++ Fails e :: later) w = (Raise e, w2).
Proof.
  intros He Hsusp.
  destruct (endpoint_suspended _ _ _ _ Hsusp) as (w1 & Hc & Hl).
  unfold websocket_endpoint. unfold bind at 1. rewrite Hc. unfold try_except.
  rewrite (receive_loop_resume _ _ _ _ _ Hl). cbn [receive_loop raise].
  rewrite He. now destruct e.
Qed.

Lemma cancellation_skips_cleanup_witness :
  isinstance_Exception CancelledError = false
  /\ websocket_endpoint 3 3 [] w_two
     = (Suspended, mkWorld [1; 2; 3] [] [] [45296%N] [Accept 3 None])
  /\ websocket_endpoint 3 3 [Fails CancelledError; Data (py "late")] w_two
     = (Raise CancelledError, mkWorld [1; 2; 3] [] [] [45296%N] [Accept 3 None]).
Proof.
  split; [reflexivity|]. split; [reflexivity|].
  apply (cancellation_skips_cleanup 3 3 [] [Data (py "late")] CancelledError w_two
           eq_refl eq_refl).
Defined.

(** ** connect, then disconnect *)

Lemma discard_app_fresh x l :
  list_contains x l = false -> discard x (l ++ [x]) = l.
Proof.
  induction l as [|y l IH]; simpl.
  - intros _. rewrite discard_cons. now rewrite Nat.eqb_refl.
  - destruct (Nat.eqb y x) eqn:E; [discriminate|].
    intros H. rewrite discard_cons, E. now rewrite (IH H).
Qed.

Lemma discard_app_present x l l' :
  list_contains x l = true -> discard x (l ++ l') = discard x l ++ l'.
Proof.
  induction l as [|y l IH]; simpl; [discriminate|].
  rewrite !discard_cons. destruct (Nat.eqb y x); [reflexivity|].
  intros H. simpl. now rewrite (IH H).
Qed.

(** X5: a connect whose accept returned, followed by a disconnect, gives
    back the list of connections as it was when the websocket was not in it;
    when it was, the older entry is the one that goes and the websocket ends
    up last. *)
Theorem connect_then_disconnect (websocket : WebSocket) (w : World) :
  answer_of (accept_script w) = None ->
  let w' := snd (disconnect websocket (snd (connect websocket w))) in
  fst (disconnect websocket (snd (connect websocket w))) = Return tt
  /\ (list_contains websocket (active_connections w) = false ->
      active_connections w' = active_connections w)
  /\ (list_contains websocket (active_connections w) = true ->
      active_connections w' = discard websocket (active_connections w) ++ [websocket]).
Proof.
  intros Hacc w'. subst w'. rewrite connect_run, Hacc, disconnect_run.
  cbn [fst snd active_connections set_active_connections].
  split; [reflexivity|]. split.
  - apply discard_app_fresh.
  - apply discard_app_present.
Qed.

Lemma connect_then_disconnect_witness :
  answer_of (accept_script w_two) = None
  /\ active_connections (snd (disconnect 3 (snd (connect 3 w_two)))) = [1; 2]
  /\ active_connections (snd (disconnect 1 (snd (connect 1 w_two)))) = [2; 1].
Proof.
  split; [reflexivity|].
  destruct (connect_then_disconnect 3 w_two eq_refl) as (_ & Hfresh & _).
  destruct (connect_then_disconnect 1 w_two eq_refl) as (_ & _ & Hold).
  split; [exact (Hfresh eq_refl) | exact (Hold eq_refl)].
Defined.

(** ** A broadcast that is cut *)

Lemma broadcast_for_app before rest message : forall w,
  forallb uncancelled (firstn (length before) (send_script w)) = true ->
  broadcast_for (before ++ rest) message w
  = broadcast_for rest message
      (mkWorld (pruned before (send_script w) (active_connections w))
               (accept_script w)
               (skipn (length before) (send_script w))
               (clock w)
               (trace w ++ attempts before message (send_script w))).
Proof.
  induction before as [|c before IH]; intros w Hs.
  - simpl. rewrite app_nil_r. now destruct w.
  - cbn [length] in Hs. apply uncancelled_firstn_S in Hs. destruct Hs as [Ha Hs].
    cbn [app broadcast_for attempts pruned length]. rewrite skipn_S_tl.
    unfold bind at 1. unfold try_except, send_text.
    destruct (answer_of (send_script w)) as [e|].
    + simpl in Ha. rewrite Ha. rewrite guarded_remove.
      rewrite IH by exact Hs. simpl. now rewrite <- app_assoc.
    + rewrite IH by exact Hs. simpl. now rewrite <- app_assoc.
Qed.

Lemma attempts_app before rest message : forall script,
  attempts (before ++ rest) message script
  = attempts before message script
      ++ attempts rest message (skipn (length before) script).
Proof.
  induction before as [|c before IH]; intros s; [reflexivity|].
  cbn [app attempts length]. now rewrite IH, skipn_S_tl.
Qed.

Lemma failed_to_absent c connections message : forall script,
  ~ In c connections ->
  count (failed_to c) (attempts connections message script) = 0.
Proof.
  unfold count.
  induction connections as [|x rest IH]; intros s Hc; [reflexivity|].
  simpl in *. assert (Hx : Nat.eqb x c = false) by (apply Nat.eqb_neq; tauto).
  destruct (answer_of s); rewrite ?Hx; apply IH; tauto.
Qed.

Lemma sent_to_absent c connections message : forall script,
  ~ In c connections ->
  count (sent_to c) (attempts connections message script) = 0.
Proof.
  intros s Hc. rewrite count_sent_attempts.
  now apply (count_occ_not_In Nat.eq_dec).
Qed.

(** X6: when a [send_text] of a broadcast raises what is no [Exception]
    (the cancellation of the task), the broadcast raises it at once: the
    connections after that one are not tried, the one the call was for keeps
    its entry, and the removals made before stand. *)
Theorem broadcast_cut_by_cancellation
  (before after : list WebSocket) (c : WebSocket) (message : str) (e : exn) (w : World) :
  active_connections w = before ++ c :: after ->
  forallb uncancelled (firstn (length before) (send_script w)) = true ->
  answer_of (skipn (length before) (send_script w)) = Some e ->
  isinstance_Exception e = false ->
  let w' := snd (broadcast message w) in
  fst (broadcast message w) = Raise e
  /\ since w w' = attempts (before ++ [c]) message (send_script w)
  /\ active_connections w' = pruned before (send_script w) (active_connections w)
  /\ (~ In c before ->
      count_occ Nat.eq_dec (active_connections w') c
      = count_occ Nat.eq_dec (active_connections w) c)
  /\ (forall x, ~ In x before -> x <> c -> count (sent_to x) (since w w') = 0).
Proof.
  intros Hl Hs Ha He w'. subst w'.
  assert (Hrun : broadcast message w
                 = (Raise e,
                    mkWorld (pruned before (send_script w) (active_connections w))
                            (accept_script w)
                            (tl (skipn (length before) (send_script w)))
                            (clock w)
                            (trace w ++ attempts (before ++ [c]) message (send_script w)))).
  { transitivity (broadcast_for (before ++ c :: after) message w);
      [unfold broadcast, bind, snapshot; now rewrite <- Hl|].
    rewrite broadcast_for_app by exact Hs.
    cbn [broadcast_for]. unfold bind, try_except, send_text.
    cbn [send_script]. rewrite Ha, He. cbn [raise trace].
    rewrite attempts_app, <- app_assoc. cbn [attempts]. now rewrite Ha. }
  rewrite Hrun. cbn [fst snd active_connections].
  assert (Hsince : since w (mkWorld (pruned before (send_script w) (active_connections w))
                            (accept_script w)
                            (tl (skipn (length before) (send_script w)))
                            (clock w)
                            (trace w ++ attempts (before ++ [c]) message (send_script w)))
                   = attempts (before ++ [c]) message (send_script w))
    by (apply since_app; reflexivity).
  rewrite Hsince.
  split; [reflexivity|]. split; [reflexivity|]. split; [reflexivity|]. split.
  { intros Hc. rewrite (count_occ_pruned c before message).
    rewrite failed_to_absent by exact Hc. apply Nat.sub_0_r. }
  intros x Hx Hxc. apply sent_to_absent.
  intros Hin. apply in_app_or in Hin. destruct Hin as [Hin|[->|[]]]; auto.
Qed.

Lemma broadcast_cut_by_cancellation_witness :
  active_connections w_cancelled = [1] ++ 2 :: [3]
  /\ forallb uncancelled (firstn (length [1]) (send_script w_cancelled)) = true
  /\ answer_of (skipn (length [1]) (send_script w_cancelled)) = Some CancelledError
  /\ isinstance_Exception CancelledError = false
  /\ fst (broadcast (py "hi") w_cancelled) = Raise CancelledError
  /\ active_connections (snd (broadcast (py "hi") w_cancelled)) = [2; 3]
  /\ count (sent_to 3) (since w_cancelled (snd (broadcast (py "hi") w_cancelled))) = 0.
Proof.
  split; [reflexivity|]. split; [reflexivity|]. split; [reflexivity|].
  split; [reflexivity|].
  destruct (@broadcast_cut_by_cancellation [1] [3] 2 (py "hi") CancelledError
              w_cancelled eq_refl eq_refl eq_refl eq_refl) as (Hr & _ & Hl & _ & Hno).
  split; [exact Hr|]. split; [exact Hl|].
  apply Hno; [simpl; intuition discriminate | discriminate].
Defined.

(** ** The list after a broadcast *)

Lemma pruned_length message connections : forall script l,
  (forall x, count_occ Nat.eq_dec connections x <= count_occ Nat.eq_dec l x) ->
  length (pruned connections script l)
  + count failed (attempts connections message script)
  = length l.
Proof.
  unfold count.
  induction connections as [|c rest IH]; intros s l Hle; [apply Nat.add_0_r|].
  assert (Hrest : forall x, x <> c ->
            count_occ Nat.eq_dec rest x <= count_occ Nat.eq_dec l x).
  { intros x Hx. specialize (Hle x). rewrite count_occ_cons_neq in Hle by congruence.
    exact Hle. }
  assert (Hc : S (count_occ Nat.eq_dec rest c) <= count_occ Nat.eq_dec l c).
  { specialize (Hle c). now rewrite count_occ_cons_eq in Hle by reflexivity. }
  cbn [pruned attempts]. destruct (answer_of s) as [e|]; cbn [filter failed length].
  - assert (Hin : list_contains c l = true).
    { apply list_contains_count. eapply Nat.lt_le_trans; [|exact Hc]. apply Nat.lt_0_succ. }
    rewrite Nat.add_succ_r, IH; [now apply length_discard|].
    intros x. destruct (Nat.eq_dec x c) as [->|Hx].
    + rewrite count_occ_discard_same. apply Nat.le_add_le_sub_r.
      now rewrite Nat.add_1_r.
    + rewrite count_occ_discard_other by congruence. now apply Hrest.
  - apply IH. intros x. destruct (Nat.eq_dec x c) as [->|Hx].
    + etransitivity; [|exact Hc]. apply Nat.le_succ_diag_r.
    + now apply Hrest.
Qed.

(** X7: a broadcast that is not cut shortens the list of connections by one
    entry for each of its [send_text] calls that raised, no more and no
    less, whether or not the list holds a websocket twice. *)
Theorem broadcast_shrinks_by_failures (message : str) (w : World) :
  forallb uncancelled (answers w) = true ->
  length (active_connections (snd (broadcast message w)))
  + count failed (since w (snd (broadcast message w)))
  = length (active_connections w).
Proof.
  intros Hs. rewrite (broadcast_since _ _ Hs). rewrite (broadcast_run _ _ Hs).
  cbn [snd active_connections]. apply pruned_length. auto.
Qed.

Lemma broadcast_shrinks_by_failures_witness :
  forallb uncancelled (answers w_failing) = true
  /\ length (active_connections (snd (broadcast (py "hi") w_failing)))
     + count failed (since w_failing (snd (broadcast (py "hi") w_failing)))
     = 3.
Proof.
  split; [reflexivity|].
  apply (broadcast_shrinks_by_failures (py "hi") w_failing eq_refl).
Defined.

Lemma discard_middle c kept rest :
  ~ In c kept -> discard c (kept ++ c :: rest) = kept ++ rest.
Proof.
  induction kept as [|y kept IH]; intros Hc; simpl.
  - rewrite discard_cons. now rewrite Nat.eqb_refl.
  - rewrite discard_cons.
    assert (Hy : Nat.eqb y c = false) by (apply Nat.eqb_neq; simpl in Hc; tauto).
    rewrite Hy, IH; [reflexivity | simpl in Hc; tauto].
Qed.

Lemma no_failure_when_absent c connections message : forall script,
  ~ In c connections ->
  existsb (failed_to c) (attempts connections message script) = false.
Proof.
  induction connections as [|x rest IH]; intros s Hc; [reflexivity|].
  simpl in *. assert (Hx : Nat.eqb x c = false) by (apply Nat.eqb_neq; tauto).
  rewrite IH by tauto. destruct (answer_of s); now rewrite ?Hx.
Qed.

Lemma pruned_filter message connections : forall kept script,
  NoDup (kept ++ connections) ->
  pruned connections script (kept ++ connections)
  = kept ++ filter (fun c => negb (existsb (failed_to c)
                                      (attempts connections message script)))
                   connections.
Proof.
  induction connections as [|c rest IH]; intros kept s Hnd; [reflexivity|].
  pose proof (NoDup_remove_1 _ _ _ Hnd) as Hnd1.
  pose proof (NoDup_remove_2 _ _ _ Hnd) as Hc.
  assert (Hck : ~ In c kept) by (intros H; apply Hc, in_or_app; now left).
  assert (Hcr : ~ In c rest) by (intros H; apply Hc, in_or_app; now right).
  assert (Hext : forall a,
            filter (fun x => negb (existsb (failed_to x)
                      (SendText c message a :: attempts rest message (tl s)))) rest
            = filter (fun x => negb (existsb (failed_to x)
                      (attempts rest message (tl s)))) rest).
  { intros a. apply filter_ext_in. intros x Hx. cbn [existsb].
    assert (Hxc : Nat.eqb c x = false)
      by (apply Nat.eqb_neq; intros ->; contradiction).
    destruct a; simpl; now rewrite ?Hxc. }
  cbn [pruned attempts filter]. destruct (answer_of s) as [e|].
  - rewrite discard_middle by exact Hck. rewrite IH by exact Hnd1.
    rewrite Hext. cbn [existsb failed_to]. rewrite Nat.eqb_refl. reflexivity.
  - change (kept ++ c :: rest) with (kept ++ [c] ++ rest). rewrite app_assoc.
    rewrite IH by (rewrite <- app_assoc; exact Hnd).
    rewrite Hext. cbn [existsb failed_to].
    rewrite no_failure_when_absent by exact Hcr.
    cbn [orb negb]. now rewrite <- app_assoc.
Qed.

(** X8: on a list without duplicates, the list after a broadcast that is not
    cut is the list before it without the connections whose [send_text]
    raised, the others in the order they had. *)
Theorem broadcast_keeps_the_healthy_in_order (message : str) (w : World) :
  NoDup (active_connections w) ->
  forallb uncancelled (answers w) = true ->
  active_connections (snd (broadcast message w))
  = filter (fun c => negb (existsb (failed_to c) (since w (snd (broadcast message w)))))
           (active_connections w).
Proof.
  intros Hnd Hs. rewrite (broadcast_since _ _ Hs). rewrite (broadcast_run _ _ Hs).
  cbn [snd active_connections].
  apply (pruned_filter message (active_connections w) [] (send_script w) Hnd).
Qed.

Lemma broadcast_keeps_the_healthy_in_order_witness :
  NoDup (active_connections w_three)
  /\ forallb uncancelled (answers w_three) = true
  /\ active_connections (snd (broadcast (py "hi") w_three))
     = filter (fun c => negb (existsb (failed_to c)
                 (since w_three (snd (broadcast (py "hi") w_three)))))
              [1; 2; 3].
Proof.
  assert (Hnd : NoDup (active_connections w_three))
    by (repeat constructor; simpl; intuition discriminate).
  split; [exact Hnd|]. split; [reflexivity|].
  apply (broadcast_keeps_the_healthy_in_order (py "hi") w_three Hnd eq_refl).
Defined.

(** X9: a connection that was in the list once and whose [send_text] raised
    in a broadcast is not sent to by the broadcast that follows, which goes
    to the connections the first one left, one call each. *)
Theorem next_broadcast_skips_the_removed (first second : str) (w : World) :
  forallb uncancelled (send_script w) = true ->
  let w1 := snd (broadcast first w) in
  let w2 := snd (broadcast second w1) in
  map target (since w1 w2) = map Some (active_connections w1)
  /\ (forall c,
        count_occ Nat.eq_dec (active_connections w) c <= 1 ->
        0 < count (failed_to c) (since w w1) ->
        count (sent_to c) (since w1 w2) = 0).
Proof.
  intros Hs w1 w2.
  assert (Hs0 : forallb uncancelled (answers w) = true) by (apply forallb_firstn; exact Hs).
  assert (Hs1 : forallb uncancelled (answers w1) = true).
  { subst w1. rewrite (broadcast_run _ _ Hs0). unfold answers. cbn [snd send_script].
    apply forallb_firstn, forallb_skipn. exact Hs. }
  subst w2. rewrite (broadcast_since _ _ Hs1).
  split; [apply target_attempts|].
  intros c Hone Hfail. rewrite count_sent_attempts.
  subst w1. rewrite (broadcast_since _ _ Hs0) in Hfail.
  rewrite (broadcast_run _ _ Hs0). cbn [snd active_connections].
  rewrite (count_occ_pruned c _ first). apply Nat.sub_0_le.
  etransitivity; [exact Hone | exact Hfail].
Qed.

Lemma next_broadcast_skips_the_removed_witness :
  forallb uncancelled (send_script w_three) = true
  /\ count_occ Nat.eq_dec (active_connections w_three) 2 <= 1
  /\ 0 < count (failed_to 2) (since w_three (snd (broadcast (py "one") w_three)))
  /\ count (sent_to 2)
       (since (snd (broadcast (py "one") w_three))
              (snd (broadcast (py "two") (snd (broadcast (py "one") w_three))))) = 0.
Proof.
  assert (H1 : count_occ Nat.eq_dec (active_connections w_three) 2 <= 1)
    by (vm_compute; lia).
  assert (H2 : 0 < count (failed_to 2) (since w_three (snd (broadcast (py "one") w_three))))
    by (vm_compute; lia).
  split; [reflexivity|]. split; [exact H1|]. split; [exact H2|].
  destruct (next_broadcast_skips_the_removed (py "one") (py "two") w_three eq_refl)
    as (_ & Hskip).
  exact (Hskip 2 H1 H2).
Defined.

(** ** A session on a healthy transport *)

Lemma attempts_returned connections message : forall script,
  forallb returned (firstn (length connections) script) = true ->
  attempts connections message script = deliveries connections message.
Proof.
  induction connections as [|c rest IH]; intros s Hs; [reflexivity|].
  cbn [attempts deliveries map]. destruct s as [|[e|] s]; simpl in Hs.
  - cbn [answer_of tl]. f_equal. apply IH. now destruct (length rest).
  - discriminate.
  - cbn [answer_of tl]. f_equal. now apply IH.
Qed.

Lemma healthy_loop websocket client_id inbox : forall w r w',
  forallb returned (send_script w) = true ->
  receive_loop websocket client_id inbox w = (r, w') ->
  r = outcome inbox
  /\ active_connections w' = active_connections w
  /\ accept_script w' = accept_script w
  /\ trace w'
     = trace w ++ flat_map (deliveries (active_connections w))
                           (payloads client_id inbox (clock w)).
Proof.
  induction inbox as [|[data|e] rest IH]; intros w r w' Hs Hrun.
  - injection Hrun as <- <-. simpl. now rewrite app_nil_r.
  - cbn [outcome payloads]. destruct (str_eqb data ping) eqn:Hping.
    + cbn [receive_loop] in Hrun. rewrite Hping in Hrun. now apply IH.
    + rewrite receive_loop_frame in Hrun
        by (exact Hping || apply returned_uncancelled; exact Hs).
      rewrite broadcast_run in Hrun
        by (apply forallb_firstn, returned_uncancelled; exact Hs).
      cbn [snd time_strftime active_connections accept_script send_script clock trace]
        in Hrun.
      apply IH in Hrun; [|cbn [send_script]; apply forallb_skipn; exact Hs].
      cbn [active_connections accept_script clock trace] in Hrun.
      rewrite pruned_all_returned in Hrun by (apply forallb_firstn; exact Hs).
      rewrite attempts_returned in Hrun by (apply forallb_firstn; exact Hs).
      destruct Hrun as (Hr & Hl & Ha & Ht).
      repeat split; try assumption.
      rewrite Ht. cbn [flat_map]. now rewrite <- app_assoc.
  - injection Hrun as <- <-. simpl. now rewrite app_nil_r.
Qed.

(** X10: on a transport whose sends all return, the loop sends the messages
    in the order their frames came: for each frame that is not the keepalive,
    up to the first [receive_text] that raises, one [send_text] per
    connection, in the order of the list and before anything of the next
    frame; the list of connections does not change. *)
Theorem frames_go_out_in_order
  (websocket : WebSocket) (client_id : Z) (inbox : list received) (w : World) :
  forallb returned (send_script w) = true ->
  fst (receive_loop websocket client_id inbox w) = outcome inbox
  /\ active_connections (snd (receive_loop websocket client_id inbox w))
     = active_connections w
  /\ since w (snd (receive_loop websocket client_id inbox w))
     = flat_map (deliveries (active_connections w))
                (payloads client_id inbox (clock w)).
Proof.
  intros Hs.
  destruct (receive_loop websocket client_id inbox w) as [r w'] eqn:Hrun.
  destruct (healthy_loop _ _ _ _ Hs Hrun) as (Hr & Hl & _ & Ht).
  cbn [fst snd]. split; [exact Hr|]. split; [exact Hl|]. now apply since_app.
Qed.

Lemma frames_go_out_in_order_witness :
  forallb returned (send_script w_healthy) = true
  /\ since w_healthy
       (snd (receive_loop 1 1
               [Data (py "a"); Data ping; Data (py "b"); Fails RuntimeError; Data (py "c")]
               w_healthy))
     = [SendText 1 (at_1234 (py "a")) None; SendText 2 (at_1234 (py "a")) None;
        SendText 1 (at_1235 (py "b")) None; SendText 2 (at_1235 (py "b")) None].
Proof.
  split; [reflexivity|].
  destruct (frames_go_out_in_order 1 1
              [Data (py "a"); Data ping; Data (py "b"); Fails RuntimeError; Data (py "c")]
              w_healthy eq_refl) as (_ & _ & Ht).
  exact Ht.
Defined.

(** X11: a whole session on a healthy transport leaves the list of
    connections as it found it: the handshake succeeds, the websocket was
    not in the list, the sends return, and some [receive_text] ends the
    session with an [Exception]; the endpoint returns, and in between every
    message went to the connections already there and to the websocket
    itself. *)
Theorem session_leaves_no_entry
  (websocket : WebSocket) (client_id : Z) (inbox : list received) (e : exn) (w : World) :
  answer_of (accept_script w) = None ->
  list_contains websocket (active_connections w) = false ->
  forallb returned (send_script w) = true ->
  outcome inbox = Raise e ->
  isinstance_Exception e = true ->
  fst (websocket_endpoint websocket client_id inbox w) = Return tt
  /\ active_connections (snd (websocket_endpoint websocket client_id inbox w))
     = active_connections w
  /\ since w (snd (websocket_endpoint websocket client_id inbox w))
     = Accept websocket None
         :: flat_map (deliveries (active_connections w ++ [websocket]))
                     (payloads client_id inbox (clock w)).
Proof.
  intros Hacc Hfresh Hs Hout He.
  unfold websocket_endpoint. unfold bind at 1 2 3. rewrite connect_run, Hacc.
  unfold try_except.
  destruct (receive_loop websocket client_id inbox _) as [r w2] eqn:Hrun.
  apply healthy_loop in Hrun; [|exact Hs].
  cbn [active_connections accept_script clock trace] in Hrun.
  destruct Hrun as (Hr & Hl & _ & Ht). rewrite Hout in Hr. subst r.
  rewrite He.
  assert (Hd : (if isinstance_WebSocketDisconnect e
                then disconnect websocket else disconnect websocket) w2
               = disconnect websocket w2)
    by now destruct (isinstance_WebSocketDisconnect e).
  rewrite Hd, disconnect_run. cbn [fst snd active_connections set_active_connections].
  split; [reflexivity|]. split.
  - rewrite Hl. now apply discard_app_fresh.
  - apply since_app. unfold set_active_connections. cbn [trace].
    rewrite Ht. now rewrite <- app_assoc.
Qed.

Lemma session_leaves_no_entry_witness :
  answer_of (accept_script w_two) = None
  /\ list_contains 3 (active_connections w_two) = false
  /\ forallb returned (send_script w_two) = true
  /\ outcome [Data (py "hello"); Fails WebSocketDisconnect] = Raise WebSocketDisconnect
  /\ isinstance_Exception WebSocketDisconnect = true
  /\ active_connections
       (snd (websocket_endpoint 3 1 [Data (py "hello"); Fails WebSocketDisconnect] w_two))
     = [1; 2].
Proof.
  split; [reflexivity|]. split; [reflexivity|]. split; [reflexivity|].
  split; [reflexivity|]. split; [reflexivity|].
  destruct (@session_leaves_no_entry 3 1 [Data (py "hello"); Fails WebSocketDisconnect]
              WebSocketDisconnect w_two eq_refl eq_refl eq_refl eq_refl eq_refl)
    as (_ & Hl & _).
  exact Hl.
Defined.

(** ** The payload on the wire *)

Lemma printable_hex_digit d : (d < 16)%N -> printable (hex_digit d) = true.
Proof.
  intros H.
  assert (Hd : (d = 0 \/ d = 1 \/ d = 2 \/ d = 3 \/ d = 4 \/ d = 5 \/ d = 6 \/ d = 7
                \/ d = 8 \/ d = 9 \/ d = 10 \/ d = 11 \/ d = 12 \/ d = 13 \/ d = 14
                \/ d = 15)%N) by lia.
  repeat (destruct Hd as [->|Hd]; [reflexivity|]). now subst.
Qed.

Lemma printable_u_escape n : forallb printable (u_escape n) = true.
Proof.
  unfold u_escape, hex4. cbn [app forallb].
  rewrite !printable_hex_digit by (apply N.mod_lt; discriminate). reflexivity.
Qed.

Lemma printable_escape_char c : forallb printable (escape_char c) = true.
Proof.
  unfold escape_char.
  repeat match goal with
         | |- context [(c =? ?k)%N] => destruct (c =? k)%N; [reflexivity|]
         end.
  destruct ((32 <=? c) && (c <=? 126))%N eqn:Hp.
  - cbn [forallb]. unfold printable. now rewrite Hp.
  - destruct (c <? 65536)%N; [apply printable_u_escape|].
    cbv zeta. rewrite forallb_app, !printable_u_escape. reflexivity.
Qed.

Lemma printable_escape s : forallb printable (escape s) = true.
Proof.
  induction s as [|c s IH]; [reflexivity|].
  unfold escape in *. cbn [flat_map]. now rewrite forallb_app, printable_escape_char, IH.
Qed.

Lemma printable_literal s : forallb printable (encode_basestring_ascii s) = true.
Proof.
  unfold encode_basestring_ascii. now rewrite !forallb_app, printable_escape.
Qed.

Lemma printable_uint d : forallb printable (py (NilEmpty.string_of_uint d)) = true.
Proof. induction d; simpl; auto. Qed.

Lemma printable_int n : forallb printable (py (NilZero.string_of_int (Z.to_int n))) = true.
Proof.
  destruct (Z.to_int n) as [d|d]; simpl;
    destruct d; try apply printable_uint; reflexivity.
Qed.

Lemma printable_item item : forallb printable (dumps_item item) = true.
Proof.
  unfold dumps_item. rewrite !forallb_app, printable_literal.
  destruct (snd item); cbn [dumps_value];
    [now rewrite printable_int | now rewrite printable_literal].
Qed.

Lemma printable_dumps (d : list (str * json)) :
  forallb printable (json_dumps d) = true.
Proof.
  unfold json_dumps. rewrite !forallb_app.
  assert (H : forallb printable (dumps_items d) = true).
  { induction d as [|item rest IH]; [reflexivity|].
    cbn [dumps_items]. destruct rest as [|item' rest']; [apply printable_item|].
    rewrite !forallb_app, printable_item, IH. reflexivity. }
  now rewrite H.
Qed.

Lemma receive_loop_sends websocket client_id inbox : forall w r w',
  receive_loop websocket client_id inbox w = (r, w') ->
  exists new,
    trace w' = trace w ++ new
    /\ Forall (fun ev => exists c m a,
                 ev = SendText c m a /\ forallb printable m = true) new.
Proof.
  induction inbox as [|[data|e] rest IH]; intros w r w' Hrun.
  - injection Hrun as _ <-. exists []. split; [now rewrite app_nil_r | constructor].
  - cbn [receive_loop] in Hrun.
    destruct (str_eqb data ping); [exact (IH _ _ _ Hrun)|].
    unfold bind at 1 in Hrun. unfold time_strftime in Hrun. unfold bind at 1 in Hrun.
    match type of Hrun with context [broadcast ?m ?w0] =>
      destruct (broadcast m w0) as [rb w1] eqn:Hb;
      assert (Hnew : exists new,
                trace w1 = trace w ++ new
                /\ Forall (fun ev => exists c m' a,
                             ev = SendText c m' a /\ forallb printable m' = true) new)
    end.
    { unfold broadcast, bind, snapshot in Hb. apply broadcast_for_frame in Hb.
      destruct Hb as (_ & _ & (new & Ht & Hnew) & _). exists new. split; [exact Ht|].
      eapply Forall_impl; [|exact Hnew].
      intros ev (c & a & -> & _). eexists c, _, a. split; [reflexivity|].
      apply printable_dumps. }
    destruct Hnew as (new1 & Ht1 & Hnew1).
    destruct rb as [[]|e|].
    + apply (IH _ _ _) in Hrun. destruct Hrun as (new2 & Ht2 & Hnew2).
      exists (new1 ++ new2). split; [now rewrite Ht2, Ht1, app_assoc|].
      apply Forall_app. now split.
    + injection Hrun as _ <-. now exists new1.
    + injection Hrun as _ <-. now exists new1.
  - injection Hrun as _ <-. exists []. split; [now rewrite app_nil_r | constructor].
Qed.

(** X12: whatever the frame, the client_id and the keys, what [json.dumps]
    hands to the broadcast holds only characters of [' '..'~']: quotes,
    backslashes, control characters and everything beyond ASCII in a string
    have been escaped; so every message the receive loop sends, whatever its
    inbox and whatever the transport answers, is made of such characters. *)
Theorem payload_is_printable_ascii (d : list (str * json)) :
  forallb printable (json_dumps d) = true
  /\ (forall websocket client_id inbox w ev,
        In ev (since w (snd (receive_loop websocket client_id inbox w))) ->
        exists c m a, ev = SendText c m a /\ forallb printable m = true).
Proof.
  split; [apply printable_dumps|].
  intros websocket client_id inbox w ev Hev.
  destruct (receive_loop websocket client_id inbox w) as [r w'] eqn:Hrun.
  apply receive_loop_sends in Hrun. destruct Hrun as (new & Ht & Hnew).
  cbn [snd] in Hev. rewrite (since_app w w' new Ht) in Hev.
  rewrite Forall_forall in Hnew. now apply Hnew.
Qed.

Lemma payload_is_printable_ascii_witness :
  In (SendText 2 (at_1234 (py "hello")) None)
     (since w_two (snd (receive_loop 1 1 [Data (py "hello")] w_two)))
  /\ forallb printable (at_1234 (py "hello")) = true.
Proof.
  assert (H : In (SendText 2 (at_1234 (py "hello")) None)
                 (since w_two (snd (receive_loop 1 1 [Data (py "hello")] w_two))))
    by (vm_compute; tauto).
  split; [exact H|].
  destruct (proj2 (payload_is_printable_ascii []) 1 1%Z [Data (py "hello")] w_two _ H)
    as (c & m & a & Hev & Hm).
  injection Hev as _ <- _. exact Hm.
Defined.

(** ** The form of the page *)

Lemma trim_start_split s :
  exists blanks, s = blanks ++ trim_start s /\ forallb js_whitespace blanks = true.
Proof.
  induction s as [|c s IH]; [now exists []|].
  cbn [trim_start]. destruct (js_whitespace c) eqn:Hc.
  - destruct IH as (blanks & Hs & Hb). exists (c :: blanks). split.
    + simpl. now rewrite <- Hs.
    + simpl. now rewrite Hc, Hb.
  - now exists [].
Qed.

Lemma trim_start_head s c : hd_error (trim_start s) = Some c -> js_whitespace c = false.
Proof.
  induction s as [|x s IH]; [discriminate|].
  cbn [trim_start]. destruct (js_whitespace x) eqn:Hx; [exact IH|].
  simpl. now intros [= <-].
Qed.

Lemma hd_error_app {A} (a b : list A) x :
  hd_error a = Some x -> hd_error (a ++ b) = Some x.
Proof. destruct a; [discriminate | auto]. Qed.

Lemma trim_ends s :
  (forall c, hd_error (trim s) = Some c -> js_whitespace c = false)
  /\ (forall c, hd_error (rev (trim s)) = Some c -> js_whitespace c = false).
Proof.
  unfold trim. split; intros c Hc.
  - destruct (trim_start_split (rev (trim_start s))) as (blanks & Hs & _).
    apply (f_equal (@rev N)) in Hs. rewrite rev_involutive, rev_app_distr in Hs.
    apply (trim_start_head s). rewrite Hs. now apply hd_error_app.
  - rewrite rev_involutive in Hc. now apply trim_start_head in Hc.
Qed.

(** X13: the form never gives [ws.send] an empty text nor one that begins
    or ends with a blank: a frame the call adds is the trimmed text of the
    input, which is then emptied, and the socket is open; with a blank
    input or a socket that is not open the call changes nothing. *)
Theorem form_sends_trimmed_text (p : Page) :
  (ws_sent (sendMessage p) = ws_sent p /\ sendMessage p = p)
  \/ (ws_sent (sendMessage p) = ws_sent p ++ [trim (messageText p)]
      /\ messageText (sendMessage p) = []
      /\ ws_readyState p = OPEN
      /\ trim (messageText p) <> []
      /\ (forall c, hd_error (trim (messageText p)) = Some c -> js_whitespace c = false)
      /\ (forall c, hd_error (rev (trim (messageText p))) = Some c ->
            js_whitespace c = false)).
Proof.
  unfold sendMessage. destruct (trim (messageText p)) as [|c v] eqn:Hv.
  - left. now split.
  - destruct (ws_readyState p) eqn:Hr; cbn [is_open negb orb]; try (left; now split).
    right. cbn [ws_sent messageText]. repeat split; try discriminate.
    + rewrite <- Hv. apply trim_ends.
    + rewrite <- Hv. apply trim_ends.
Qed.

Lemma form_sends_trimmed_text_witness :
  ws_sent (sendMessage (mkPage (py " hi there  ") OPEN [])) = [py "hi there"]
  /\ js_whitespace 104 = false.
Proof.
  destruct (form_sends_trimmed_text (mkPage (py " hi there  ") OPEN []))
    as [[Hsame _] | (_ & _ & _ & _ & Hfirst & _)].
  - vm_compute in Hsame. discriminate.
  - split; [reflexivity | apply Hfirst; reflexivity].
Defined.

(** X14: a text typed in the form that is the keepalive token once trimmed
    is sent as such, and the endpoint that receives what the form sent
    drops it: nothing is broadcast and the world of the hub stays as it
    was. *)
Theorem typed_ping_is_swallowed
  (p : Page) (websocket : WebSocket) (client_id : Z) (w : World) :
  ws_readyState p = OPEN ->
  trim (messageText p) = ping ->
  ws_sent (sendMessage p) = ws_sent p ++ [ping]
  /\ receive_loop websocket client_id
       (map Data (skipn (length (ws_sent p)) (ws_sent (sendMessage p)))) w
     = (Suspended, w).
Proof.
  intros Hr Hp. unfold sendMessage. rewrite Hp, Hr.
  cbn [ping py map list_ascii_of_string is_open negb orb ws_sent].
  split; [reflexivity|].
  rewrite skipn_app, skipn_all, Nat.sub_diag. reflexivity.
Qed.

Lemma typed_ping_is_swallowed_witness :
  ws_readyState (mkPage typed_ping OPEN []) = OPEN
  /\ trim (messageText (mkPage typed_ping OPEN [])) = ping
  /\ ws_sent (sendMessage (mkPage typed_ping OPEN [])) = [ping]
  /\ receive_loop 1 1
       (map Data (skipn 0 (ws_sent (sendMessage (mkPage typed_ping OPEN []))))) w_two
     = (Suspended, w_two).
Proof.
  split; [reflexivity|]. split; [reflexivity|].
  destruct (typed_ping_is_swallowed (mkPage typed_ping OPEN []) 1 1 w_two
              eq_refl eq_refl) as (Hsent & Hloop).
  split; [exact Hsent | exact Hloop].
Defined.

(** ** The order of service *)

(** X15: the list is kept in the order of arrival: after a connect whose
    accept returned, a broadcast that is not cut calls the connections that
    were there first, in their order, and the newcomer last. *)
Theorem newcomer_is_served_last (websocket : WebSocket) (message : str) (w : World) :
  answer_of (accept_script w) = None ->
  forallb uncancelled (send_script w) = true ->
  let w1 := snd (connect websocket w) in
  map target (since w1 (snd (broadcast message w1)))
  = map Some (active_connections w) ++ [Some websocket].
Proof.
  intros Hacc Hs w1. subst w1. rewrite connect_run, Hacc. cbn [snd].
  rewrite broadcast_since by (apply forallb_firstn; exact Hs).
  cbn [active_connections]. now rewrite target_attempts, map_app.
Qed.

Lemma newcomer_is_served_last_witness :
  answer_of (accept_script w_two) = None
  /\ forallb uncancelled (send_script w_two) = true
  /\ map target (since (snd (connect 0 w_two))
                       (snd (broadcast (py "hi") (snd (connect 0 w_two)))))
     = [Some 1; Some 2; Some 0].
Proof.
  split; [reflexivity|]. split; [reflexivity|].
  apply (newcomer_is_served_last 0 (py "hi") w_two eq_refl eq_refl).
Defined.

(** ** Who is in the list *)

Lemma step_members w o c :
  In c (active_connections (step w o)) ->
  In c (active_connections w) \/ o = Add c.
Proof.
  destruct o as [ws|ws|m]; cbn [step].
  - rewrite connect_run. destruct (answer_of (accept_script w)); cbn [snd active_connections].
    + now left.
    + intros H. apply in_app_or in H. destruct H as [H|[->|[]]]; [now left | now right].
  - rewrite disconnect_run. cbn [snd active_connections set_active_connections].
    intros H. left. eapply discard_incl; eauto.
  - destruct (broadcast m w) as [r w'] eqn:Hb. cbn [snd].
    unfold broadcast, bind, snapshot in Hb. apply broadcast_for_frame in Hb.
    intros H. left. now apply Hb.
Qed.

(** X16: after any sequence of connect, disconnect and broadcast calls, a
    websocket in the list was in it at the start or was given to a connect
    of the sequence: neither disconnect nor broadcast puts anything in. *)
Theorem members_were_connected (ops : list op) (w : World) (c : WebSocket) :
  In c (active_connections (run_ops ops w)) ->
  In c (active_connections w) \/ In (Add c) ops.
Proof.
  revert w. induction ops as [|o rest IH]; intros w H; [now left|].
  unfold run_ops in H. cbn [fold_left] in H. apply IH in H.
  destruct H as [H|H]; [|right; now right].
  apply step_members in H. destruct H as [H| ->]; [now left | right; now left].
Qed.

Lemma members_were_connected_witness :
  In 2 (active_connections
          (run_ops [Add 1; Add 2; Broadcast (py "hi"); Remove 1] (initial [] [] [])))
  /\ (In 2 (active_connections (initial [] [] []))
      \/ In (Add 2) [Add 1; Add 2; Broadcast (py "hi"); Remove 1]).
Proof.
  assert (H : In 2 (active_connections
                (run_ops [Add 1; Add 2; Broadcast (py "hi"); Remove 1] (initial [] [] []))))
    by (vm_compute; tauto).
  split; [exact H|].
  apply (members_were_connected
           [Add 1; Add 2; Broadcast (py "hi"); Remove 1] (initial [] [] []) 2 H).
Defined.

(** ** No websocket twice *)

Lemma accepted_app c t new :
  accepted c t = true -> accepted c (t ++ new) = true.
Proof. intros H. unfold accepted in *. now rewrite existsb_app, H. Qed.

(** The two facts a call keeps: no websocket is in the list twice, and the
    websockets in the list are ones [accept()] returned on. *)
Lemma step_accepts_once w o :
  NoDup (active_connections w) ->
  forallb (fun c => accepted c (trace w)) (active_connections w) = true ->
  accepts_once [o] w = true ->
  NoDup (active_connections (step w o))
  /\ forallb (fun c => accepted c (trace (step w o))) (active_connections (step w o)) = true.
Proof.
  intros Hnd Hacc Hrule. rewrite forallb_forall in Hacc.
  destruct o as [ws|ws|m]; cbn [step accepts_once] in *.
  - rewrite connect_run. destruct (answer_of (accept_script w)) as [e|];
      cbn [snd active_connections trace].
    + split; [exact Hnd|]. apply forallb_forall. intros c Hc.
      apply accepted_app. now apply Hacc.
    + destruct (accepted ws (trace w)) eqn:Hws; [discriminate|].
      assert (Hfresh : ~ In ws (active_connections w)).
      { intros Hin. apply Hacc in Hin. congruence. }
      split.
      * apply NoDup_app; [exact Hnd | repeat constructor; simpl; tauto |].
        intros x Hx [<-|[]]. contradiction.
      * apply forallb_forall. intros c Hc. apply in_app_or in Hc.
        destruct Hc as [Hc|[<-|[]]].
        -- apply accepted_app. now apply Hacc.
        -- unfold accepted. rewrite existsb_app. cbn [existsb].
           rewrite Nat.eqb_refl. now rewrite orb_true_r.
  - rewrite disconnect_run. cbn [snd active_connections set_active_connections trace].
    split; [now apply NoDup_discard|]. apply forallb_forall. intros c Hc.
    apply Hacc. eapply discard_incl; eauto.
  - split; [unfold broadcast, bind, snapshot; now apply broadcast_for_NoDup|].
    destruct (broadcast m w) as [r w'] eqn:Hb. cbn [snd].
    unfold broadcast, bind, snapshot in Hb. apply broadcast_for_frame in Hb.
    destruct Hb as (_ & _ & (new & Ht & _) & _ & Hin).
    apply forallb_forall. intros c Hc. rewrite Ht. apply accepted_app. auto.
Qed.

(** C3: the list of connections never holds a websocket twice.  From a
    list without duplicates whose websockets are accepted ones (the empty
    list of a new manager is such a list), any sequence of connect,
    disconnect and broadcast calls, connect called twice with one websocket
    included, leaves every websocket in the list at most once, over a
    transport whose [accept()] raises on a websocket it has accepted before:
    the second connect raises before its append.  The facts carried along
    are kept by every call. *)
Theorem no_duplicate_handle (ops : list op) (w : World) :
  NoDup (active_connections w) ->
  forallb (fun c => accepted c (trace w)) (active_connections w) = true ->
  accepts_once ops w = true ->
  NoDup (active_connections (run_ops ops w))
  /\ (forall c, count_occ Nat.eq_dec (active_connections (run_ops ops w)) c <= 1)
  /\ forallb (fun c => accepted c (trace (run_ops ops w)))
             (active_connections (run_ops ops w)) = true.
Proof.
  revert w. induction ops as [|o rest IH]; intros w Hnd Hacc Hrule.
  - split; [exact Hnd|]. split; [now apply NoDup_count_occ | exact Hacc].
  - cbn [accepts_once] in Hrule. apply andb_prop in Hrule. destruct Hrule as [Ho Hrest].
    destruct (step_accepts_once w o Hnd Hacc) as [Hnd1 Hacc1].
    { cbn [accepts_once]. now rewrite Ho. }
    unfold run_ops. cbn [fold_left]. now apply IH.
Qed.

Lemma no_duplicate_handle_witness :
  NoDup (active_connections w_strict)
  /\ forallb (fun c => accepted c (trace w_strict)) (active_connections w_strict) = true
  /\ accepts_once [Add 7; Add 7; Broadcast (py "hi"); Remove 7; Add 8] w_strict = true
  /\ active_connections (run_ops [Add 7; Add 7] w_strict) = [7]
  /\ NoDup (active_connections
              (run_ops [Add 7; Add 7; Broadcast (py "hi"); Remove 7; Add 8] w_strict)).
Proof.
  split; [constructor|]. split; [reflexivity|]. split; [reflexivity|].
  split; [reflexivity|].
  apply (no_duplicate_handle [Add 7; Add 7; Broadcast (py "hi"); Remove 7; Add 8]
           w_strict); [constructor | reflexivity | reflexivity].
Defined.
